(** * Sustainability packaging chatbot: a verification development

    A shallow embedding of [streamlit_app.py]: the deterministic carbon
    footprint estimator, the two prompt builders, the chat gateway wrapper,
    the PDF text extraction wrapper and the control flow of the Streamlit
    script [main], followed by the properties of the specification that are
    about them.

    Conventions of the embedding.
    - A Python [str] is the list of its Unicode code points.
    - Python numbers are taken through an interface [PyNum] with two
      instances: the real numbers (the idealisation the specification
      speaks about) and IEEE binary64 (what CPython computes with).
    - A Python call that may raise returns a [result].
    - The Streamlit script is a state-passing program over the session
      state, the rendered page and the log of gateway calls, which can halt
      early ([st.stop], [st.rerun], an uncaught exception). *)

From Stdlib Require Import ZArith NArith QArith List String Ascii Bool DecimalString.
From Stdlib Require Import Reals Lra Lia Floats Uint63.
From stdpp Require Import gmap.

(* ===================================================================== *)
(** * Python values                                                        *)
(* ===================================================================== *)

(** A [str] is a sequence of code points. *)
Abbreviation pystr := (list N).

Definition str_of_ascii (s : string) : pystr :=
  map N_of_ascii (list_ascii_of_string s).

(** The escape [\n] of a Python string literal. *)
Fixpoint unescape (s : list ascii) : list ascii :=
  match s with
  | "\"%char :: "n"%char :: r => "010"%char :: unescape r
  | c :: r => c :: unescape r
  | [] => []
  end.

(** [py "..."] is the (ASCII) string literal written between the quotes. *)
Definition py (s : string) : pystr :=
  map N_of_ascii (unescape (list_ascii_of_string s)).

(** [str(n)] for an [int]. *)
Definition str_int (n : Z) : pystr :=
  str_of_ascii (NilZero.string_of_int (Z.to_int n)).

(** [bool(s)] for a [str]. *)
Definition str_truthy (s : pystr) : bool :=
  match s with [] => false | _ :: _ => true end.

(** [s[:stop]]: a negative [stop] counts from the end, and the bound is
    clamped to the length. *)
Definition slice_to {A : Type} (stop : Z) (s : list A) : list A :=
  let n := Z.of_nat (length s) in
  let stop := if (stop <? 0)%Z then Z.max 0 (n + stop) else Z.min stop n in
  take (Z.to_nat stop) s.

(** [c.isspace()], the characters that [str.strip()] removes. *)
Definition isspace (c : N) : bool :=
  ((9 <=? c) && (c <=? 13) || (28 <=? c) && (c <=? 32)
   || (c =? 133) || (c =? 160) || (c =? 5760)
   || (8192 <=? c) && (c <=? 8202)
   || (c =? 8232) || (c =? 8233) || (c =? 8239) || (c =? 8287)
   || (c =? 12288))%N.

Fixpoint lstrip (s : pystr) : pystr :=
  match s with
  | c :: s' => if isspace c then lstrip s' else s
  | [] => []
  end.

Definition rstrip (s : pystr) : pystr := rev (lstrip (rev s)).

(** [s.strip()] *)
Definition strip (s : pystr) : pystr := rstrip (lstrip s).

(** Values decoded from JSON, which is all the gateway can hand back. *)
#[warnings="-register-all"]
Inductive pyval : Type :=
  | PyNone
  | PyBool (b : bool)
  | PyNumber (x : Q)
  | PyStr (s : pystr)
  | PyList (items : list pyval)
  | PyDict (fields : gmap pystr pyval).

(** [bool(v)] *)
Definition truthy (v : pyval) : bool :=
  match v with
  | PyNone => false
  | PyBool b => b
  | PyNumber x => negb (Qeq_bool x 0)
  | PyStr s => str_truthy s
  | PyList items => match items with [] => false | _ :: _ => true end
  | PyDict fields => negb (Nat.eqb (size fields) 0)
  end.

(** Exceptions that the modelled code can meet.  [KeyError] carries the
    [repr] of the missing key, which is also its [str]. *)
Inductive exn : Type :=
  | ZeroDivisionError
  | KeyError (key_repr : pystr)
  | IndexError
  | TypeError
  | AttributeError.

(** The outcome of a Python expression: a value or a raised exception. *)
Inductive result (A : Type) : Type :=
  | Returns (a : A)
  | Raises (e : exn).
Arguments Returns {A} a.
Arguments Raises {A} e.

#[export] Instance result_ret : MRet result := fun _ a => Returns a.
#[export] Instance result_bind : MBind result := fun _ _ f r =>
  match r with
  | Returns a => f a
  | Raises e => Raises e
  end.

(** [v[k]] for a string key [k] without quotes or escapes. *)
Definition getitem (v : pyval) (k : pystr) : result pyval :=
  match v with
  | PyDict fields =>
      match fields !! k with
      | Some x => Returns x
      | None => Raises (KeyError (py "'" ++ k ++ py "'"))
      end
  | _ => Raises TypeError
  end.

(** [v[0]] *)
Definition getitem0 (v : pyval) : result pyval :=
  match v with
  | PyList (x :: _) => Returns x
  | PyList [] => Raises IndexError
  | PyStr (c :: _) => Returns (PyStr [c])
  | PyStr [] => Raises IndexError
  | PyDict _ => Raises (KeyError (py "0"))
  | _ => Raises TypeError
  end.

(** ** Numbers *)

(** The arithmetic the estimator uses.  [lit q] is the value of the numeric
    literal whose decimal reading is [q]; [quot] is the quotient for a
    divisor that is not zero. *)
Class PyNum (num : Type) : Type := {
  lit : Q -> num;
  add : num -> num -> num;
  mul : num -> num -> num;
  quot : num -> num -> num;
  is_zero : num -> bool
}.

(** Python's [x / y]: raises [ZeroDivisionError] on a zero divisor. *)
Definition truediv {num} `{PyNum num} (x y : num) : result num :=
  if is_zero y then Raises ZeroDivisionError else Returns (quot x y).

(** Real numbers. *)
#[export] Instance Rnum : PyNum R := {
  lit := Q2R;
  add := Rplus;
  mul := Rmult;
  quot := Rdiv;
  is_zero := fun x => if Req_EM_T x 0 then true else false
}.

(** IEEE binary64, as CPython's [float].  An integer below 2^53 converts
    exactly and the division is correctly rounded, so [lit] yields the
    binary64 number nearest to the decimal, which is how a literal reads. *)
Definition float_of_Z (z : Z) : float :=
  match z with
  | Z0 => 0%float
  | Zpos _ => PrimFloat.of_uint63 (Uint63.of_Z z)
  | Zneg p => (- PrimFloat.of_uint63 (Uint63.of_Z (Zpos p)))%float
  end.

#[export] Instance F64 : PyNum float := {
  lit := fun q => (float_of_Z (Qnum q) / float_of_Z (Zpos (Qden q)))%float;
  add := PrimFloat.add;
  mul := PrimFloat.mul;
  quot := PrimFloat.div;
  is_zero := fun x => PrimFloat.eqb x 0%float
}.

(** ** Dictionaries *)

(** [d.get(k, default)]: never raises. *)
Definition dict_get {V : Type} (d : gmap pystr V) (k : pystr) (default : V) : V :=
  match d !! k with
  | Some v => v
  | None => default
  end.

(* ===================================================================== *)
(** * The carbon footprint estimator                                       *)
(* ===================================================================== *)

Section Estimator.
Context {num : Type} `{PyNum num}.

(** Emission factors, kg CO2e per kg of material. *)
Definition material_factors : gmap pystr num :=
  <[py "Plastic" := lit 2.5]>
  (<[py "Glass" := lit 1.2]>
  (<[py "Aluminum" := lit 10.0]>
  (<[py "Paper" := lit 1.0]>
  (<[py "Bioplastic" := lit 1.5]>
  (<[py "Compostable" := lit 1.2]>
  (<[py "Other" := lit 2.0]> ∅)))))).

(** 0.1 kg CO2e per ton-km, converted to per gram-km. *)
Definition transport_factor : result num :=
  truediv (lit 0.1) (lit 1000).

(** Returns the triple (material, transport, total) of emissions. *)
Definition estimate_carbon_footprint (material : pystr) (weight distance : num)
  : result (num * num * num) :=
  transport_factor ← transport_factor;
  let material_factor := dict_get material_factors material (lit 2.0) in
  kg ← truediv weight (lit 1000);
  let material_emissions := mul kg material_factor in
  let transport_emissions := mul (mul weight distance) transport_factor in
  let total_emissions := add material_emissions transport_emissions in
  mret (material_emissions, transport_emissions, total_emissions).

End Estimator.

(* ===================================================================== *)
(** * Prompts                                                              *)
(* ===================================================================== *)

Definition SYSTEM_PROMPT : pystr :=
  py "You are a sustainability and packaging expert specializing in Life Cycle Assessment (LCA), ESG (Environmental, Social, Governance) reporting, "
  ++ py "and materiality analysis for packaging. Answer user questions as an industry authority, using up-to-date standards, real-world examples, and "
  ++ py "clear explanations tailored to packaging solutions.".

(** A chat message, the dict with the keys "role" and "content". *)
Record message : Type := Message { role : pystr; content : pyval }.

(** The text before and after the report in the ESG prompt. *)
Definition esg_prompt_head : pystr :=
  py "Below is the extracted text from a company's ESG report. "
  ++ py "Please provide:\n"
  ++ py "1. A concise summary of the company's ESG performance.\n"
  ++ py "2. A benchmarking analysis compared to industry standards or leaders (if possible).\n"
  ++ py "3. Key recommendations for improvement.\n"
  ++ py "Here is the ESG report:\n"
  ++ py "-----\n".

Definition esg_prompt_tail : pystr := py "\n-----\n".

(** The local [prompt] of [summarize_and_benchmark_esg]. *)
Definition esg_prompt (text : pystr) : pystr :=
  esg_prompt_head ++ (slice_to 3500 text ++ esg_prompt_tail).

(** ['Yes' if flag else 'No'] *)
Definition yes_no (flag : bool) : pystr :=
  if flag then py "Yes" else py "No".

(** The local [prompt] of [ai_sustainability_assessment]; [weight] is the
    text that the f-string renders for the weight. *)
Definition assessment_prompt (material weight : pystr) (recyclable renewable : bool)
  : pystr :=
  py "Packaging parameters:\n"
  ++ py "- Material: " ++ material ++ py "\n"
  ++ py "- Weight: " ++ weight ++ py " grams\n"
  ++ py "- Recyclable: " ++ yes_no recyclable ++ py "\n"
  ++ py "- Made from renewable resources: " ++ yes_no renewable ++ py "\n\n"
  ++ py "Based on these, provide:\n"
  ++ py "1. A sustainability score out of 10 (with justification).\n"
  ++ py "2. A brief assessment and recommendations for improvement.".

(** What is between the head and the tail of a built ESG prompt. *)
Definition embedded_segment (prompt : pystr) : pystr :=
  let body := drop (length esg_prompt_head) prompt in
  take (length body - length esg_prompt_tail) body.

(* ===================================================================== *)
(** * The collaborators: chat gateway and PDF reader                       *)
(* ===================================================================== *)

(** What [requests.post(...)], [raise_for_status()] and [json()] can do.
    [RequestFailed] is a [RequestException] that carries no response (a
    timeout, a refused connection, a body that does not decode);
    [HTTPError] is the one [raise_for_status] raises, on a 4xx or 5xx
    status, with the response attached; [Response] is the decoded body of
    a response on which [raise_for_status] does not raise, whatever its
    status below 400. *)
Inductive post_outcome : Type :=
  | RequestFailed (e : pystr)
  | HTTPError (status_code : Z) (text : pystr)
  | Response (body : pyval).

(** [body["choices"][0]["message"]["content"]] *)
Definition reply_content (body : pyval) : result pyval :=
  choices ← getitem body (py "choices");
  first ← getitem0 choices;
  msg ← getitem first (py "message");
  getitem msg (py "content").

(** What PyPDF2 does with one page: [extract_text()] returns a text,
    returns [None], or raises. *)
Inductive page_outcome : Type :=
  | PageText (t : pystr)
  | PageNone
  | PageRaises (e : pystr).

(** What PyPDF2 does with an upload: [PdfReader] raises, or gives pages. *)
Inductive pdf : Type :=
  | Unreadable (e : pystr)
  | Pages (pages : list page_outcome).

Record uploaded_file : Type := Upload { name : pystr; document : pdf }.

(** The loop of [extract_text_from_pdf] from the text accumulated so far:
    the text at the end of the loop, and the exception that ended it early
    if one did. *)
Fixpoint read_pages (pages : list page_outcome) (text : pystr)
  : pystr * option pystr :=
  match pages with
  | [] => (text, None)
  | PageText t :: rest => read_pages rest (text ++ t)
  | PageNone :: rest => read_pages rest (text ++ [])
  | PageRaises e :: _ => (text, Some e)
  end.

(** The body of the [try] of [extract_text_from_pdf]. *)
Definition read_pdf (d : pdf) : pystr * option pystr :=
  match d with
  | Unreadable e => ([], Some e)
  | Pages pages => read_pages pages []
  end.

(* ===================================================================== *)
(** * The Streamlit script                                                 *)
(* ===================================================================== *)

Inductive view : Type := ChatView | EsgView | ScoreView | CarbonView.

(** How a script run ends before its last line.  On [Uncaught] Streamlit
    reports the exception in place of the rest of the page; that report is
    Streamlit's, not a call of the script, and is not an event of the
    page below. *)
Inductive halt : Type :=
  | Stop
  | Rerun
  | Uncaught (e : exn).

Inductive outcome (A : Type) : Type :=
  | Done (a : A)
  | Halted (h : halt).
Arguments Done {A} a.
Arguments Halted {A} h.

Section Script.
Context {num : Type} `{PyNum num}.

(** [str(x)] for a number, as an f-string renders it. *)
Variable str_num : num -> pystr.

(** What the script's own calls put on the page, in their order.
    [Title] is the page configuration, the style sheet and the title;
    [Tabs] the bar of the four tabs; [Sidebar] the About text and the Clear
    Chat button; [Form v] the caption and the input widgets of a view;
    [Error], [Success] and [Info] are [st.error], [st.success] and
    [st.info]; [ChatMessage] is a [st.chat_message] with its text;
    [EsgSummary] and [AiAssessment] are the result boxes of the two AI
    forms (the first with its download button); [CarbonResults] is the
    result box of the estimator with its three figures. *)
Inductive ui_event : Type :=
  | Title
  | Tabs
  | Sidebar
  | Form (v : view)
  | Error (msg : pystr)
  | Success (msg : pystr)
  | Info (msg : pystr)
  | ChatMessage (role : pystr) (body : pyval)
  | EsgSummary (result : pyval)
  | AiAssessment (result : pyval)
  | CarbonResults (material_em transport_em total_em : num).

(** The state a script run works on: [st.session_state.messages] (absent
    until first set), the page rendered so far and the conversations
    posted to the gateway so far. *)
Record world : Type := World {
  messages : option (list message);
  page : list ui_event;
  calls : list (list message)
}.

(** What a script run reads: the configuration, the gateway's behaviour
    and the values of the widgets. *)
Record env : Type := Env {
  GROQ_API_KEY : option pystr;
  post : list message -> post_outcome;
  clear_chat : bool;
  chat_input : option pystr;
  file_uploader : option uploaded_file;
  analyze_report : bool;
  score_material : pystr;
  score_weight : num;
  recyclable_radio : pystr;
  renewable_radio : pystr;
  get_score : bool;
  cf_material : pystr;
  cf_weight : num;
  cf_distance : num;
  estimate_button : bool
}.

Definition script (A : Type) : Type := world -> outcome A * world.

#[export] Instance script_ret : MRet script := fun _ a w => (Done a, w).
#[export] Instance script_bind : MBind script := fun _ _ f m w =>
  match m w with
  | (Done a, w') => f a w'
  | (Halted h, w') => (Halted h, w')
  end.

Definition halt_with {A : Type} (h : halt) : script A :=
  fun w => (Halted h, w).

(** An exception that nothing catches ends the run. *)
Definition lift {A : Type} (r : result A) : script A :=
  match r with
  | Returns a => mret a
  | Raises e => halt_with (Uncaught e)
  end.

Definition render (ev : ui_event) : script unit :=
  fun w => (Done tt, World (messages w) (page w ++ [ev]) (calls w)).

Definition get_messages : script (list message) :=
  fun w =>
    match messages w with
    | Some ms => (Done ms, w)
    | None => (Halted (Uncaught AttributeError), w)
    end.

Definition set_messages (ms : list message) : script unit :=
  fun w => (Done tt, World (Some ms) (page w) (calls w)).

(** [if "messages" not in st.session_state: st.session_state.messages = []] *)
Definition init_messages : script unit :=
  fun w =>
    match messages w with
    | None => set_messages [] w
    | Some _ => (Done tt, w)
    end.

(** [st.session_state.messages.append(m)] *)
Definition append_message (m : message) : script unit :=
  ms ← get_messages; set_messages (ms ++ [m]).

(** A POST to the gateway.  The URL, the headers, the model, the
    temperature and the token limit are constants of the request; the log
    keeps what varies, the messages. *)
Definition record_call (conversation : list message) : script unit :=
  fun w => (Done tt, World (messages w) (page w) (calls w ++ [conversation])).

Fixpoint for_each {A : Type} (l : list A) (body : A -> script unit) : script unit :=
  match l with
  | [] => mret tt
  | x :: rest => body x;; for_each rest body
  end.

Definition when (c : bool) (body : script unit) : script unit :=
  if c then body else mret tt.

Section Run.
Variable E : env.

(** Returns the reply, or [None] after showing an error when the request
    raised a [RequestException] or the body lacks a key; any other
    exception is not caught. *)
Definition ask_groq (conversation : list message) : script pyval :=
  record_call conversation;;
  match post E conversation with
  | Response body =>
      match reply_content body with
      | Returns reply => mret reply
      | Raises (KeyError k) =>
          render (Error (py "Unexpected API response format: " ++ k));;
          mret PyNone
      | Raises e => halt_with (Uncaught e)
      end
  | HTTPError status_code text =>
      render (Error (py "API Error " ++ str_int status_code ++ py ": " ++ text));;
      mret PyNone
  | RequestFailed e =>
      render (Error (py "Request failed: " ++ e));;
      mret PyNone
  end.

(** Returns the text read before an exception, if one was raised, after
    showing it. *)
Definition extract_text_from_pdf (f : uploaded_file) : script pystr :=
  match read_pdf (document f) with
  | (text, Some e) =>
      render (Error (py "Could not read PDF: " ++ e));;
      mret text
  | (text, None) => mret text
  end.

Definition summarize_and_benchmark_esg (text : pystr) : script pyval :=
  ask_groq [Message (py "system") (PyStr SYSTEM_PROMPT);
            Message (py "user") (PyStr (esg_prompt text))].

Definition ai_sustainability_assessment
    (material : pystr) (weight : num) (recyclable renewable : bool)
  : script pyval :=
  ask_groq [Message (py "system") (PyStr SYSTEM_PROMPT);
            Message (py "user")
              (PyStr (assessment_prompt material (str_num weight)
                        recyclable renewable))].

Definition carbon_footprint_tab : script unit :=
  render (Form CarbonView);;
  when (estimate_button E)
    ('(material_em, transport_em, total_em) ←
       lift (estimate_carbon_footprint (cf_material E) (cf_weight E) (cf_distance E));
     render (CarbonResults material_em transport_em total_em);;
     render (Info (py "Emission factors are approximate and for demonstration only."))).

(** The block [with tab1:] of [main]. *)
Definition chat_tab : script unit :=
  init_messages;;
  history ← get_messages;
  for_each history (fun m => render (ChatMessage (role m) (content m)));;
  render (Form ChatView);;
  match chat_input E with
  | Some prompt =>
      when (str_truthy prompt)
        (append_message (Message (py "user") (PyStr prompt));;
         render (ChatMessage (py "user") (PyStr prompt));;
         history ← get_messages;
         let conversation :=
           [Message (py "system") (PyStr SYSTEM_PROMPT)] ++ history in
         response ← ask_groq conversation;
         if truthy response then
           render (ChatMessage (py "assistant") response);;
           append_message (Message (py "assistant") response)
         else
           render (Error (py "Could not get a response from the model.")))
  | None => mret tt
  end.

(** The block [with tab2:] of [main]. *)
Definition esg_tab : script unit :=
  render (Form EsgView);;
  match file_uploader E with
  | Some f =>
      render (Success (py "File uploaded: " ++ name f));;
      when (analyze_report E)
        (text ← extract_text_from_pdf f;
         if str_truthy (strip text) then
           result ← summarize_and_benchmark_esg text;
           if truthy result then render (EsgSummary result)
           else render (Error (py "Failed to analyze report."))
         else
           render (Error (py "No readable text found in PDF.")))
  | None => mret tt
  end.

(** The block [with tab3:] of [main]. *)
Definition score_tab : script unit :=
  render (Form ScoreView);;
  let recyclable := bool_decide (recyclable_radio E = py "Yes") in
  let renewable := bool_decide (renewable_radio E = py "Yes") in
  when (get_score E)
    (result ← ai_sustainability_assessment
                (score_material E) (score_weight E) recyclable renewable;
     if truthy result then render (AiAssessment result)
     else render (Error (py "AI could not generate a response."))).

(** [bool(GROQ_API_KEY)]: the variable is set and is not empty. *)
Definition key_present : bool :=
  match GROQ_API_KEY E with
  | Some k => str_truthy k
  | None => false
  end.

Definition main : script unit :=
  render Title;;
  render Tabs;;
  render Sidebar;;
  when (clear_chat E) (set_messages [];; halt_with Rerun);;
  when (negb key_present)
    (render (Error (py "GROQ_API_KEY not set. Please check your .env file."));;
     halt_with Stop);;
  chat_tab;;
  esg_tab;;
  score_tab;;
  carbon_footprint_tab.

End Run.
End Script.

Arguments ui_event num : clear implicits.
Arguments world num : clear implicits.
Arguments env num : clear implicits.
Arguments script num A : clear implicits.

(* ===================================================================== *)
(** * Vocabulary of the statements, and sample runs                        *)
(* ===================================================================== *)

(** The table of the specification, to compare the code's table with. *)
Definition emission_factor_table : list (string * Q) :=
  [("Plastic", 2.5); ("Glass", 1.2); ("Aluminum", 10.0); ("Paper", 1.0);
   ("Bioplastic", 1.5); ("Compostable", 1.2); ("Other", 2.0)]%Q%string.

(** Componentwise order on the triples the estimator returns. *)
Definition le3 (a b : R * R * R) : Prop :=
  let '(m1, t1, s1) := a in
  let '(m2, t2, s2) := b in
  (m1 <= m2 /\ t1 <= t2 /\ s1 <= s2)%R.

(** Frame conditions on a piece of the script: it leaves the chat history
    alone, it posts nothing to the gateway, it only adds to the page. *)
Definition keeps_messages {num A} (s : script num A) : Prop :=
  forall w, messages (snd (s w)) = messages w.

Definition keeps_calls {num A} (s : script num A) : Prop :=
  forall w, calls (snd (s w)) = calls w.

Definition grows_page {num A} (s : script num A) : Prop :=
  forall w, exists more, page (snd (s w)) = page w ++ more.

(** The conversation that [summarize_and_benchmark_esg] posts. *)
Definition esg_conversation (text : pystr) : list message :=
  [Message (py "system") (PyStr SYSTEM_PROMPT);
   Message (py "user") (PyStr (esg_prompt text))].

(** ** Sample runs, in binary64 *)

(** A first run of a session: no history, an empty page, no call yet. *)
Definition empty_world : world float := World None [] [].

(** The widgets of the two forms at their initial values (first option of
    a select box or radio, the minimum 0.0 of a number input) except for
    the estimator's weight and distance, set to 500 g and 100 km. *)
Definition sample_env (key : option pystr) (gateway : list message -> post_outcome)
    (chat : option pystr) (upload : option uploaded_file)
    (analyze estimate : bool) : env float :=
  Env key gateway false chat upload analyze
      (py "Plastic") (lit 0) (py "Yes") (py "Yes") false
      (py "Plastic") (lit 500) (lit 100) estimate.

(** [str] of the only number the sample runs could format, the score
    form's weight 0.0. *)
Definition str_zero (x : float) : pystr := py "0.0".

(** A well-formed body of the gateway with the given reply. *)
Definition reply_body (reply : pyval) : pyval :=
  PyDict {[ py "choices" :=
    PyList [PyDict {[ py "message" :=
      PyDict (<[ py "role" := PyStr (py "assistant") ]>
                {[ py "content" := reply ]}) ]}] ]}.

(** No API key; the user presses the estimate button. *)
Definition no_key_env : env float :=
  sample_env None (fun _ => RequestFailed (py "unreachable")) None None false true.

(** The same with a key. *)
Definition with_key_env : env float :=
  sample_env (Some (py "gsk_test")) (fun _ => RequestFailed (py "unreachable"))
             None None false true.

(** The user sends "Hi" and the gateway answers 200 with an empty reply. *)
Definition empty_reply_env : env float :=
  sample_env (Some (py "gsk_test")) (fun _ => Response (reply_body (PyStr [])))
             (Some (py "Hi")) None false false.

(** The user sends "Hi" and the gateway answers 200 with "Hello!". *)
Definition hello_reply_env : env float :=
  sample_env (Some (py "gsk_test"))
             (fun _ => Response (reply_body (PyStr (py "Hello!"))))
             (Some (py "Hi")) None false false.

(** The user sends "Hi" and the gateway times out. *)
Definition timeout_env : env float :=
  sample_env (Some (py "gsk_test")) (fun _ => RequestFailed (py "Read timed out."))
             (Some (py "Hi")) None false false.

(** A PDF whose first page reads and whose second page makes PyPDF2 raise. *)
Definition partial_pdf : uploaded_file :=
  Upload (py "report.pdf")
         (Pages [PageText (py "Scope 1 emissions fell."); PageRaises (py "bad xref")]).

(** The user uploads that PDF and presses the analyze button. *)
Definition partial_pdf_env : env float :=
  sample_env (Some (py "gsk_test"))
             (fun _ => Response (reply_body (PyStr (py "Summary."))))
             None (Some partial_pdf) true false.

(** The user uploads a file that is not a PDF and presses the button. *)
Definition unreadable_pdf_env : env float :=
  sample_env (Some (py "gsk_test"))
             (fun _ => Response (reply_body (PyStr (py "Summary."))))
             None (Some (Upload (py "notes.pdf") (Unreadable (py "EOF marker not found"))))
             true false.

(** ** Vocabulary of the further properties *)

(** The text one page adds to the extraction. *)
Definition page_text (p : page_outcome) : pystr :=
  match p with
  | PageText t => t
  | PageNone | PageRaises _ => []
  end.

Definition page_raises (p : page_outcome) : bool :=
  match p with
  | PageRaises _ => true
  | PageText _ | PageNone => false
  end.

(** A conversation opens with the system prompt. *)
Definition opens_with_system_prompt (conversation : list message) : Prop :=
  exists rest,
    conversation = Message (py "system") (PyStr SYSTEM_PROMPT) :: rest.

(** A piece of the script only adds to the log of gateway calls, at most
    [n] conversations, each with the property [P]. *)
Definition posts {num A} (P : list message -> Prop) (n : nat)
    (s : script num A) : Prop :=
  forall w, exists new,
    calls (snd (s w)) = calls w ++ new /\ Forall P new /\ length new <= n.

(** ** Further sample runs, in binary64 *)

(** A session with one exchange behind it. *)
Definition greeted_world : world float :=
  World (Some [Message (py "user") (PyStr (py "Hi"));
               Message (py "assistant") (PyStr (py "Hello!"))])
        [] [].

(** A key, and nothing pressed or submitted. *)
Definition idle_env : env float :=
  sample_env (Some (py "gsk_test")) (fun _ => RequestFailed (py "unreachable"))
             None None false false.

(** The Clear Chat button pressed, without a key. *)
Definition clear_chat_env : env float :=
  Env None (fun _ => RequestFailed (py "unreachable")) true None None false
      (py "Plastic") (lit 0) (py "Yes") (py "Yes") false
      (py "Plastic") (lit 500) (lit 100) false.

(** The user sends "Hi" and the gateway answers 200 with no choice. *)
Definition no_choice_env : env float :=
  sample_env (Some (py "gsk_test"))
             (fun _ => Response (PyDict {[ py "choices" := PyList [] ]}))
             (Some (py "Hi")) None false false.

(** The user sends "Hi" and the gateway answers 200 with an error object
    in place of the choices. *)
Definition no_choices_key_env : env float :=
  sample_env (Some (py "gsk_test"))
             (fun _ => Response (PyDict {[ py "error" := PyStr (py "overloaded") ]}))
             (Some (py "Hi")) None false false.

(** The user sends "Hi" and the gateway answers 429. *)
Definition rate_limited_env : env float :=
  sample_env (Some (py "gsk_test"))
             (fun _ => HTTPError 429 (py "Too Many Requests"))
             (Some (py "Hi")) None false false.

(** The score form filled in (recyclable: Yes, renewable: No) and its
    button pressed. *)
Definition score_env : env float :=
  Env (Some (py "gsk_test"))
      (fun _ => Response (reply_body (PyStr (py "Score: 6/10."))))
      false None None false
      (py "Glass") (lit 0) (py "Yes") (py "No") true
      (py "Plastic") (lit 500) (lit 100) false.

(** A PDF of three pages that all read, the second without text. *)
Definition clean_pdf : uploaded_file :=
  Upload (py "clean.pdf")
         (Pages [PageText (py "Scope 1. "); PageNone; PageText (py "Scope 2.")]).

(** The user uploads that PDF and presses the analyze button. *)
Definition clean_pdf_env : env float :=
  sample_env (Some (py "gsk_test"))
             (fun _ => Response (reply_body (PyStr (py "Summary."))))
             None (Some clean_pdf) true false.

(** A scanned PDF: its pages read as white space only. *)
Definition blank_pdf : uploaded_file :=
  Upload (py "scan.pdf") (Pages [PageText (py " \n"); PageNone; PageText (py "  ")]).

Definition blank_pdf_env : env float :=
  sample_env (Some (py "gsk_test"))
             (fun _ => Response (reply_body (PyStr (py "Summary."))))
             None (Some blank_pdf) true false.

(* ===================================================================== *)
(** * Properties of the estimator                                          *)
(* ===================================================================== *)

Section EstimatorGeneric.
Context {num : Type} `{PyNum num}.

Lemma dict_get_absent {V} (d : gmap pystr V) k default :
  d !! k = None -> dict_get d k default = default.
Proof. unfold dict_get. intros ->. reflexivity. Qed.

Lemma dict_get_present {V} (d : gmap pystr V) k v default :
  d !! k = Some v -> dict_get d k default = v.
Proof. unfold dict_get. intros ->. reflexivity. Qed.

(** The dictionary of the code holds the table of the specification. *)
Lemma material_factors_table :
  material_factors
  = list_to_map (map (fun '(k, q) => (py k, lit q)) emission_factor_table).
Proof. reflexivity. Qed.

Lemma lookup_table :
  Forall (fun '(k, q) => material_factors !! py k = Some (lit q))
         emission_factor_table.
Proof. repeat constructor. Qed.

Lemma lookup_Other : material_factors !! py "Other" = Some (lit 2.0).
Proof. reflexivity. Qed.

(** A material is absent from the dictionary exactly when it is none of the
    seven names of the table. *)
Lemma lookup_absent_iff (material : pystr) :
  material_factors !! material = None
  <-> ~ In material (map (fun kq => py (fst kq)) emission_factor_table).
Proof.
  rewrite material_factors_table. split.
  - intros Hnone Hin. apply not_elem_of_list_to_map_2 in Hnone.
    apply Hnone. apply in_map_iff in Hin as ([k q] & <- & Hin).
    apply list_elem_of_fmap. exists (py k, lit q). split; [reflexivity |].
    apply list_elem_of_In, in_map_iff. exists (k, q). auto.
  - intros Hnot. apply not_elem_of_list_to_map_1. intros Hin. apply Hnot.
    apply list_elem_of_fmap in Hin as ([k' v] & -> & Hin).
    apply list_elem_of_In, in_map_iff in Hin as ([k q] & Heq & Hin).
    injection Heq as <- <-. apply in_map_iff. exists (k, q). auto.
Qed.

(** Every factor the lookup can produce comes from the table or is the
    default. *)
Lemma factor_cases (material : pystr) :
  exists q, dict_get material_factors material (lit 2.0) = lit q
            /\ (q = 2.0%Q \/ In q (map snd emission_factor_table)).
Proof.
  unfold dict_get. destruct (material_factors !! material) as [v|] eqn:Hm.
  - rewrite material_factors_table in Hm.
    apply elem_of_list_to_map_2 in Hm.
    apply list_elem_of_In, in_map_iff in Hm as ([k q] & Heq & Hin).
    injection Heq as _ <-. exists q. split; [reflexivity | right].
    apply in_map_iff. exists (k, q). auto.
  - exists 2.0%Q. auto.
Qed.

(** A material outside the table is priced as "Other", in any arithmetic. *)
Lemma absent_material_as_Other (material : pystr) (weight distance : num) :
  material_factors !! material = None ->
  estimate_carbon_footprint material weight distance
  = estimate_carbon_footprint (py "Other") weight distance.
Proof.
  intros Habs. unfold estimate_carbon_footprint.
  rewrite (dict_get_absent _ _ _ Habs).
  replace (dict_get material_factors (py "Other") (lit 2.0)) with (lit 2.0)
    by (symmetry; apply dict_get_present, lookup_Other).
  reflexivity.
Qed.

(** The only operation that can raise is the division, and both divisors
    are the constant 1000. *)
Lemma estimate_returns (material : pystr) (weight distance : num) :
  is_zero (lit 1000) = false ->
  estimate_carbon_footprint material weight distance
  = Returns
      (let f := dict_get material_factors material (lit 2.0) in
       let m := mul (quot weight (lit 1000)) f in
       let t := mul (mul weight distance) (quot (lit 0.1) (lit 1000)) in
       (m, t, add m t)).
Proof.
  intros Hnz. unfold estimate_carbon_footprint, transport_factor, truediv.
  rewrite Hnz. reflexivity.
Qed.

End EstimatorGeneric.

(** ** Over the real numbers *)

Lemma real_1000_nonzero : is_zero (lit (num := R) 1000) = false.
Proof.
  cbn. destruct (Req_EM_T (Q2R 1000) 0) as [Hz | Hnz]; [lra | reflexivity].
Qed.

Lemma estimate_real (material : pystr) (w d : R) :
  estimate_carbon_footprint material w d
  = Returns (w / 1000 * dict_get material_factors material 2.0,
             w * d * (0.1 / 1000),
             w / 1000 * dict_get material_factors material 2.0
             + w * d * (0.1 / 1000))%R.
Proof.
  rewrite (estimate_returns material w d real_1000_nonzero). cbn.
  repeat f_equal; lra.
Qed.

Lemma factor_positive (material : pystr) :
  (0 < dict_get (material_factors (num := R)) material 2.0)%R.
Proof.
  destruct (factor_cases (num := R) material) as (q & Hq & Hcases).
  change (0 < dict_get material_factors material (lit 2.0))%R.
  rewrite Hq. change (0 < Q2R q)%R.
  destruct Hcases as [-> | Hcases]; [lra |].
  cbn in Hcases.
  repeat (destruct Hcases as [<- | Hcases]; [lra |]). contradiction.
Qed.

Lemma triple_eq (a a' b b' c c' : R) :
  a = a' -> b = b' -> c = c' -> Returns (a, b, c) = Returns (a', b', c').
Proof. intros -> -> ->. reflexivity. Qed.

(** ** Over binary64 *)

Lemma binary64_1000_nonzero : is_zero (lit (num := float) 1000) = false.
Proof. vm_compute. reflexivity. Qed.

(** [lit] yields the binary64 numbers that CPython reads the literals
    as. *)
Lemma binary64_literals :
  lit 2.5 = 0x1.4p+1%float /\ lit 1.2 = 0x1.3333333333333p+0%float
  /\ lit 10.0 = 0x1.4p+3%float /\ lit 1.0 = 0x1p+0%float
  /\ lit 1.5 = 0x1.8p+0%float /\ lit 2.0 = 0x1p+1%float
  /\ lit 0.1 = 0x1.999999999999ap-4%float
  /\ lit 1000 = 0x1.f4p+9%float
  /\ lit 0.0001 = 0x1.a36e2eb1c432dp-14%float.
Proof. vm_compute. repeat split. Qed.

(** In binary64 arithmetic [0.1 / 1000] rounds to the literal [0.0001]. *)
Lemma binary64_transport_factor :
  transport_factor (num := float) = Returns (lit 0.0001).
Proof. vm_compute. reflexivity. Qed.

(** The three worked cases of the specification, run in binary64. *)
Example binary64_plastic_500_100 :
  estimate_carbon_footprint (py "Plastic") (lit 500) (lit 100)
  = Returns (lit 1.25, lit 5.0, lit 6.25 : float).
Proof. vm_compute. reflexivity. Qed.

Example binary64_aluminum_50_0 :
  estimate_carbon_footprint (py "Aluminum") (lit 50) (lit 0)
  = Returns (lit 0.5, lit 0.0, lit 0.5 : float).
Proof. vm_compute. reflexivity. Qed.

Example binary64_unknown_1000_10 :
  estimate_carbon_footprint (py "Unknown-XYZ") (lit 1000) (lit 10)
  = Returns (lit 2.0, lit 1.0, lit 3.0 : float).
Proof. vm_compute. reflexivity. Qed.

(** ** The claims about the estimator *)

(** C1.  For each material of the emission-factor table (Plastic 2.5,
    Glass 1.2, Aluminum 10.0, Paper 1.0, Bioplastic 1.5, Compostable 1.2,
    Other 2.0) and all real weights and distances, the estimator returns
    the material emissions [(weight / 1000) * factor] and the transport
    emissions [weight * distance * 0.0001]; the transport factor
    [0.1 / 1000] is exactly [0.0001]. *)
Theorem table_material_emissions (weightGrams transportDistanceKm : R) :
  transport_factor = Returns 0.0001%R
  /\ Forall
       (fun '(material, factor) =>
          estimate_carbon_footprint (py material) weightGrams transportDistanceKm
          = Returns (weightGrams / 1000 * Q2R factor,
                     weightGrams * transportDistanceKm * 0.0001,
                     weightGrams / 1000 * Q2R factor
                     + weightGrams * transportDistanceKm * 0.0001)%R)
       [("Plastic", 2.5); ("Glass", 1.2); ("Aluminum", 10.0); ("Paper", 1.0);
        ("Bioplastic", 1.5); ("Compostable", 1.2); ("Other", 2.0)]%Q%string.
Proof.
  split.
  - unfold transport_factor, truediv. rewrite real_1000_nonzero.
    cbn. f_equal. lra.
  - pose proof (lookup_table (num := R)) as Htable.
    unfold emission_factor_table in Htable.
    eapply Forall_impl; [exact Htable |].
    intros [material factor] Hlookup. rewrite estimate_real.
    rewrite (dict_get_present _ _ _ _ Hlookup). cbn.
    apply triple_eq; lra.
Qed.

(** C2.  For every material and all real weights and distances the total
    returned is exactly the sum of the material and the transport
    emissions returned, and for a non-negative weight and distance all
    three are non-negative. *)
Theorem total_is_sum_and_nonnegative
    (material : pystr) (weightGrams transportDistanceKm : R) :
  exists materialEmissionsKg transportEmissionsKg : R,
    estimate_carbon_footprint material weightGrams transportDistanceKm
    = Returns (materialEmissionsKg, transportEmissionsKg,
               (materialEmissionsKg + transportEmissionsKg)%R)
    /\ ((0 <= weightGrams)%R -> (0 <= transportDistanceKm)%R ->
        (0 <= materialEmissionsKg)%R /\ (0 <= transportEmissionsKg)%R
        /\ (0 <= materialEmissionsKg + transportEmissionsKg)%R).
Proof.
  eexists _, _. split; [apply estimate_real |].
  intros Hw Hd. pose proof (factor_positive material) as Hf.
  assert (0 <= weightGrams / 1000 * dict_get material_factors material 2.0)%R
    by (apply Rmult_le_pos; lra).
  assert (0 <= weightGrams * transportDistanceKm * (0.1 / 1000))%R
    by (apply Rmult_le_pos; [apply Rmult_le_pos |]; lra).
  repeat split; lra.
Qed.

Lemma total_is_sum_and_nonnegative_witness :
  exists m t : R,
    estimate_carbon_footprint (py "Plastic") 500%R 100%R = Returns (m, t, (m + t)%R)
    /\ (0 <= m)%R /\ (0 <= t)%R /\ (0 <= m + t)%R.
Proof.
  destruct (total_is_sum_and_nonnegative (py "Plastic") 500%R 100%R)
    as (m & t & Heq & Hnonneg).
  exists m, t. split; [exact Heq | apply Hnonneg; lra].
Defined.

(** C3.  For every material that is not in the emission-factor table the
    estimator returns what it returns for "Other", that is with the factor
    2.0, and the lookup does not fail. *)
Theorem unknown_material_as_Other
    (material : pystr) (weightGrams transportDistanceKm : R) :
  material_factors (num := R) !! material = None ->
  estimate_carbon_footprint material weightGrams transportDistanceKm
  = estimate_carbon_footprint (py "Other") weightGrams transportDistanceKm
  /\ estimate_carbon_footprint material weightGrams transportDistanceKm
     = Returns (weightGrams / 1000 * 2.0,
                weightGrams * transportDistanceKm * 0.0001,
                weightGrams / 1000 * 2.0
                + weightGrams * transportDistanceKm * 0.0001)%R.
Proof.
  intros Habsent. split; [apply absent_material_as_Other, Habsent |].
  rewrite estimate_real, (dict_get_absent _ _ _ Habsent).
  apply triple_eq; lra.
Qed.

Lemma unknown_material_as_Other_witness :
  estimate_carbon_footprint (py "Unknown-XYZ") 1000%R 10%R
  = estimate_carbon_footprint (py "Other") 1000%R 10%R
  /\ estimate_carbon_footprint (py "Unknown-XYZ") 1000%R 10%R
     = Returns (1000 / 1000 * 2.0, 1000 * 10 * 0.0001,
                1000 / 1000 * 2.0 + 1000 * 10 * 0.0001)%R.
Proof.
  apply (unknown_material_as_Other (py "Unknown-XYZ") 1000%R 10%R).
  reflexivity.
Defined.

(** C4.  The estimator returns for every material and all real weights and
    distances, and no division raises; with a zero weight the material
    and the transport terms are exactly zero, and with a zero distance the
    transport term is exactly zero. *)
Theorem estimate_total_and_zero_terms
    (material : pystr) (weightGrams transportDistanceKm : R) :
  (exists r, estimate_carbon_footprint material weightGrams transportDistanceKm
             = Returns r)
  /\ estimate_carbon_footprint material 0%R transportDistanceKm
     = Returns (0, 0, 0)%R
  /\ (exists materialEmissionsKg,
        estimate_carbon_footprint material weightGrams 0%R
        = Returns (materialEmissionsKg, 0%R, materialEmissionsKg)).
Proof.
  split; [| split].
  - eexists. apply estimate_real.
  - rewrite estimate_real. apply triple_eq; lra.
  - eexists. rewrite estimate_real. apply triple_eq; [reflexivity | lra | lra].
Qed.

Lemma monotone_joint (material : pystr) (w1 w2 d1 d2 : R) :
  (0 <= w1 <= w2)%R -> (0 <= d1 <= d2)%R ->
  exists r1 r2,
    estimate_carbon_footprint material w1 d1 = Returns r1
    /\ estimate_carbon_footprint material w2 d2 = Returns r2
    /\ le3 r1 r2.
Proof.
  intros Hw Hd. eexists _, _.
  split; [apply estimate_real |]. split; [apply estimate_real |].
  pose proof (factor_positive material) as Hf. unfold le3.
  assert (w1 / 1000 * dict_get material_factors material 2.0
          <= w2 / 1000 * dict_get material_factors material 2.0)%R
    by (apply Rmult_le_compat_r; lra).
  assert (w1 * d1 <= w2 * d2)%R by (apply Rmult_le_compat; lra).
  assert (w1 * d1 * (0.1 / 1000) <= w2 * d2 * (0.1 / 1000))%R
    by (apply Rmult_le_compat_r; lra).
  repeat split; lra.
Qed.

(** C10.  For a fixed material and non-negative inputs, each of the three
    outputs is non-decreasing in the weight with the distance fixed, and
    in the distance with the weight fixed. *)
Theorem estimate_monotone (material : pystr) :
  (forall w1 w2 d : R,
     (0 <= w1 <= w2)%R -> (0 <= d)%R ->
     exists r1 r2,
       estimate_carbon_footprint material w1 d = Returns r1
       /\ estimate_carbon_footprint material w2 d = Returns r2
       /\ le3 r1 r2)
  /\ (forall w d1 d2 : R,
        (0 <= w)%R -> (0 <= d1 <= d2)%R ->
        exists r1 r2,
          estimate_carbon_footprint material w d1 = Returns r1
          /\ estimate_carbon_footprint material w d2 = Returns r2
          /\ le3 r1 r2).
Proof.
  split; intros; apply monotone_joint; lra.
Qed.

Lemma estimate_monotone_witness :
  (exists r1 r2,
     estimate_carbon_footprint (py "Glass") 250%R 40%R = Returns r1
     /\ estimate_carbon_footprint (py "Glass") 500%R 40%R = Returns r2
     /\ le3 r1 r2)
  /\ (exists r1 r2,
        estimate_carbon_footprint (py "Glass") 250%R 40%R = Returns r1
        /\ estimate_carbon_footprint (py "Glass") 250%R 90%R = Returns r2
        /\ le3 r1 r2).
Proof.
  destruct (estimate_monotone (py "Glass")) as [Hweight Hdistance].
  split.
  - apply (Hweight 250%R 500%R 40%R); lra.
  - apply (Hdistance 250%R 40%R 90%R); lra.
Defined.

(* ===================================================================== *)
(** * Properties of the prompt builders                                    *)
(* ===================================================================== *)

Lemma slice_to_take {A : Type} (stop : Z) (s : list A) :
  (0 <= stop)%Z -> slice_to stop s = take (Z.to_nat stop) s.
Proof.
  intros Hstop. unfold slice_to.
  destruct (Z.ltb_spec stop 0) as [Hneg | _]; [lia |].
  destruct (Z.le_ge_cases stop (Z.of_nat (length s))) as [Hle | Hge].
  - rewrite Z.min_l by exact Hle. reflexivity.
  - rewrite Z.min_r by exact Hge. rewrite Nat2Z.id.
    rewrite firstn_all. symmetry. apply take_ge. lia.
Qed.

Lemma slice_to_negative {A : Type} (stop : Z) (s : list A) :
  (stop < 0)%Z -> slice_to stop s = take (length s - Z.to_nat (- stop)) s.
Proof.
  intros Hneg. unfold slice_to.
  destruct (Z.ltb_spec stop 0) as [_ | Hpos]; [| lia].
  f_equal. lia.
Qed.

Lemma embedded_segment_between (x : pystr) :
  embedded_segment (esg_prompt_head ++ (x ++ esg_prompt_tail)) = x.
Proof.
  unfold embedded_segment. rewrite drop_app_length.
  rewrite length_app, Nat.add_sub. apply take_app_length.
Qed.

(** C5.  The ESG prompt embeds the first 3500 characters of the report
    text, cut at the character count, between the delimiter lines: the
    embedded segment is never longer than 3500 characters, and a text of
    at most 3500 characters is embedded unchanged. *)
Theorem esg_prompt_truncation (reportText : pystr) :
  esg_prompt reportText
  = esg_prompt_head ++ (take 3500 reportText ++ esg_prompt_tail)
  /\ (exists before, esg_prompt_head = before ++ py "-----\n")
  /\ esg_prompt_tail = py "\n-----\n"
  /\ embedded_segment (esg_prompt reportText) = take 3500 reportText
  /\ length (embedded_segment (esg_prompt reportText))
     = Nat.min 3500 (length reportText)
  /\ length (embedded_segment (esg_prompt reportText)) <= 3500
  /\ (length reportText <= 3500 ->
      embedded_segment (esg_prompt reportText) = reportText).
Proof.
  assert (Hslice : slice_to 3500 reportText = take 3500 reportText)
    by (rewrite slice_to_take by lia; reflexivity).
  assert (Hseg : embedded_segment (esg_prompt reportText) = take 3500 reportText)
    by (unfold esg_prompt; rewrite embedded_segment_between; exact Hslice).
  split; [unfold esg_prompt; rewrite Hslice; reflexivity |].
  split; [eexists; unfold esg_prompt_head; rewrite !app_assoc; reflexivity |].
  split; [reflexivity |].
  split; [exact Hseg |].
  rewrite Hseg, length_take.
  split; [reflexivity |]. split; [lia |].
  intros Hshort. apply take_ge. exact Hshort.
Qed.

Lemma esg_prompt_truncation_witness :
  embedded_segment (esg_prompt (py "Scope 1 emissions fell by 12%."))
  = py "Scope 1 emissions fell by 12%.".
Proof.
  apply (esg_prompt_truncation (py "Scope 1 emissions fell by 12%.")).
  cbn. lia.
Defined.

(** C9.  For each of the four combinations of the recyclable and renewable
    flags, the assessment prompt is the fixed template with the material
    and the weight, in which a true flag reads "Yes" and a false flag reads
    "No". *)
Theorem assessment_prompt_yes_no (material weight : pystr) :
  (forall flag, yes_no flag = if flag then py "Yes" else py "No")
  /\ assessment_prompt material weight true true
     = py "Packaging parameters:\n- Material: " ++ material
       ++ py "\n- Weight: " ++ weight
       ++ py " grams\n- Recyclable: Yes\n- Made from renewable resources: Yes\n\nBased on these, provide:\n1. A sustainability score out of 10 (with justification).\n2. A brief assessment and recommendations for improvement."
  /\ assessment_prompt material weight true false
     = py "Packaging parameters:\n- Material: " ++ material
       ++ py "\n- Weight: " ++ weight
       ++ py " grams\n- Recyclable: Yes\n- Made from renewable resources: No\n\nBased on these, provide:\n1. A sustainability score out of 10 (with justification).\n2. A brief assessment and recommendations for improvement."
  /\ assessment_prompt material weight false true
     = py "Packaging parameters:\n- Material: " ++ material
       ++ py "\n- Weight: " ++ weight
       ++ py " grams\n- Recyclable: No\n- Made from renewable resources: Yes\n\nBased on these, provide:\n1. A sustainability score out of 10 (with justification).\n2. A brief assessment and recommendations for improvement."
  /\ assessment_prompt material weight false false
     = py "Packaging parameters:\n- Material: " ++ material
       ++ py "\n- Weight: " ++ weight
       ++ py " grams\n- Recyclable: No\n- Made from renewable resources: No\n\nBased on these, provide:\n1. A sustainability score out of 10 (with justification).\n2. A brief assessment and recommendations for improvement.".
Proof.
  split; [reflexivity |].
  repeat split; reflexivity.
Qed.

(** What [ai_sustainability_assessment] posts: the system prompt, then the
    assessment prompt with the weight as the f-string renders it. *)
Lemma ai_sustainability_assessment_posts {num : Type} `{PyNum num}
    (str_num : num -> pystr) (E : env num) (w : world num)
    (material : pystr) (weight : num) (recyclable renewable : bool) :
  calls (snd (ai_sustainability_assessment str_num E material weight
                recyclable renewable w))
  = calls w
    ++ [[Message (py "system") (PyStr SYSTEM_PROMPT);
         Message (py "user")
           (PyStr (assessment_prompt material (str_num weight)
                     recyclable renewable))]].
Proof.
  unfold ai_sustainability_assessment, ask_groq.
  unfold mbind, script_bind, record_call. cbn [messages page calls].
  destruct (post E _) as [e | code text | body];
    [reflexivity | reflexivity |].
  destruct (reply_content body) as [reply | []]; reflexivity.
Qed.

(* ===================================================================== *)
(** * Properties of [str.strip]                                            *)
(* ===================================================================== *)

Lemma lstrip_truthy (s : pystr) :
  str_truthy (lstrip s) = existsb (fun c => negb (isspace c)) s.
Proof.
  induction s as [| c s IH]; [reflexivity |].
  cbn [lstrip existsb]. destruct (isspace c); [exact IH | reflexivity].
Qed.

Lemma lstrip_nonspace (s : pystr) :
  existsb (fun c => negb (isspace c)) (lstrip s)
  = existsb (fun c => negb (isspace c)) s.
Proof.
  induction s as [| c s IH]; [reflexivity |].
  cbn [lstrip existsb]. destruct (isspace c) eqn:Hc; [exact IH |].
  cbn [existsb]. rewrite Hc. reflexivity.
Qed.

Lemma existsb_rev {A : Type} (f : A -> bool) (l : list A) :
  existsb f (rev l) = existsb f l.
Proof.
  induction l as [| x l IH]; [reflexivity |].
  cbn [rev existsb]. rewrite existsb_app, IH. cbn [existsb].
  rewrite orb_false_r. apply orb_comm.
Qed.

Lemma str_truthy_rev (s : pystr) : str_truthy (rev s) = str_truthy s.
Proof.
  destruct s as [| c s]; [reflexivity |].
  cbn [rev]. destruct (rev s); reflexivity.
Qed.

(** A text survives [strip()] exactly when it has a character that is not
    white space. *)
Lemma strip_truthy (s : pystr) :
  str_truthy (strip s) = existsb (fun c => negb (isspace c)) s.
Proof.
  unfold strip, rstrip.
  rewrite str_truthy_rev, lstrip_truthy, existsb_rev. apply lstrip_nonspace.
Qed.

(* ===================================================================== *)
(** * Properties of the script                                             *)
(* ===================================================================== *)

Create HintDb frame.

Section ScriptFacts.
Context {num : Type} `{PyNum num}.
Variable str_num : num -> pystr.

Lemma bind_run {A B} (m : script num A) (f : A -> script num B) (w : world num) :
  (m ≫= f) w
  = match m w with
    | (Done a, w') => f a w'
    | (Halted h, w') => (Halted h, w')
    end.
Proof. reflexivity. Qed.

(** ** Frame conditions of the building blocks *)

Lemma keeps_messages_bind {A B} (m : script num A) (f : A -> script num B) :
  keeps_messages m -> (forall a, keeps_messages (f a)) -> keeps_messages (m ≫= f).
Proof.
  intros Hm Hf w. rewrite bind_run. specialize (Hm w).
  destruct (m w) as [[a | h] w']; cbn in *; [rewrite Hf |]; exact Hm.
Qed.

Lemma keeps_calls_bind {A B} (m : script num A) (f : A -> script num B) :
  keeps_calls m -> (forall a, keeps_calls (f a)) -> keeps_calls (m ≫= f).
Proof.
  intros Hm Hf w. rewrite bind_run. specialize (Hm w).
  destruct (m w) as [[a | h] w']; cbn in *; [rewrite Hf |]; exact Hm.
Qed.

Lemma grows_page_bind {A B} (m : script num A) (f : A -> script num B) :
  grows_page m -> (forall a, grows_page (f a)) -> grows_page (m ≫= f).
Proof.
  intros Hm Hf w. rewrite bind_run. destruct (Hm w) as [more Hmore].
  destruct (m w) as [[a | h] w']; cbn in *.
  - destruct (Hf a w') as [more' Hmore']. exists (more ++ more').
    rewrite Hmore', Hmore, app_assoc. reflexivity.
  - exists more. exact Hmore.
Qed.

Lemma keeps_messages_ret {A} (a : A) : keeps_messages (mret a : script num A).
Proof. intros w. reflexivity. Qed.

Lemma keeps_calls_ret {A} (a : A) : keeps_calls (mret a : script num A).
Proof. intros w. reflexivity. Qed.

Lemma grows_page_ret {A} (a : A) : grows_page (mret a : script num A).
Proof. intros w. exists []. cbn. rewrite app_nil_r. reflexivity. Qed.

Lemma keeps_messages_halt {A} h : keeps_messages (halt_with h : script num A).
Proof. intros w. reflexivity. Qed.

Lemma keeps_calls_halt {A} h : keeps_calls (halt_with h : script num A).
Proof. intros w. reflexivity. Qed.

Lemma grows_page_halt {A} h : grows_page (halt_with h : script num A).
Proof. intros w. exists []. cbn. rewrite app_nil_r. reflexivity. Qed.

Lemma keeps_messages_render ev : keeps_messages (render (num := num) ev).
Proof. intros w. reflexivity. Qed.

Lemma keeps_calls_render ev : keeps_calls (render (num := num) ev).
Proof. intros w. reflexivity. Qed.

Lemma grows_page_render ev : grows_page (render (num := num) ev).
Proof. intros w. exists [ev]. reflexivity. Qed.

Lemma keeps_messages_record_call c : keeps_messages (record_call (num := num) c).
Proof. intros w. reflexivity. Qed.

Lemma grows_page_record_call c : grows_page (record_call (num := num) c).
Proof. intros w. exists []. cbn. rewrite app_nil_r. reflexivity. Qed.

Lemma keeps_messages_lift {A} (r : result A) : keeps_messages (lift (num := num) r).
Proof. destruct r; intros w; reflexivity. Qed.

Lemma keeps_calls_lift {A} (r : result A) : keeps_calls (lift (num := num) r).
Proof. destruct r; intros w; reflexivity. Qed.

Lemma grows_page_lift {A} (r : result A) : grows_page (lift (num := num) r).
Proof. destruct r; intros w; exists []; cbn; rewrite app_nil_r; reflexivity. Qed.

Hint Resolve keeps_messages_bind keeps_calls_bind grows_page_bind
  keeps_messages_ret keeps_calls_ret grows_page_ret
  keeps_messages_halt keeps_calls_halt grows_page_halt
  keeps_messages_render keeps_calls_render grows_page_render
  keeps_messages_record_call grows_page_record_call
  keeps_messages_lift keeps_calls_lift grows_page_lift : frame.

(** Goes through a script along its binds and branches. *)
Ltac frame :=
  repeat first
    [ progress intros
    | solve [auto with frame]
    | apply keeps_messages_bind | apply keeps_calls_bind | apply grows_page_bind
    | match goal with
      | |- context [match ?x with _ => _ end] => destruct x
      end ].

(** Runs the building blocks of a script on an explicit world. *)
Ltac run :=
  repeat progress
    (unfold mbind, script_bind, mret, script_ret, append_message,
       get_messages, set_messages, init_messages, render, record_call,
       halt_with, lift, when;
     cbn [app messages page calls fst snd negb]).

Variable E : env num.

Lemma keeps_messages_ask_groq c : keeps_messages (ask_groq E c).
Proof. unfold ask_groq. frame. Qed.

Lemma grows_page_ask_groq c : grows_page (ask_groq E c).
Proof. unfold ask_groq. frame. Qed.

Lemma keeps_messages_esg_tab : keeps_messages (esg_tab E).
Proof.
  unfold esg_tab, when, extract_text_from_pdf, summarize_and_benchmark_esg.
  pose proof keeps_messages_ask_groq. frame.
Qed.

Lemma keeps_messages_score_tab : keeps_messages (score_tab str_num E).
Proof.
  unfold score_tab, when, ai_sustainability_assessment.
  pose proof keeps_messages_ask_groq. frame.
Qed.

Lemma keeps_messages_carbon_footprint_tab : keeps_messages (carbon_footprint_tab E).
Proof. unfold carbon_footprint_tab, when. frame. Qed.

Lemma keeps_calls_score_tab :
  get_score E = false -> keeps_calls (score_tab str_num E).
Proof. intros Hidle. unfold score_tab, when. rewrite Hidle. frame. Qed.

Lemma keeps_calls_carbon_footprint_tab : keeps_calls (carbon_footprint_tab E).
Proof. unfold carbon_footprint_tab, when. frame. Qed.

Lemma grows_page_score_tab : grows_page (score_tab str_num E).
Proof.
  unfold score_tab, when, ai_sustainability_assessment.
  pose proof grows_page_ask_groq. frame.
Qed.

Lemma grows_page_carbon_footprint_tab : grows_page (carbon_footprint_tab E).
Proof. unfold carbon_footprint_tab, when. frame. Qed.

(** What a frame condition on the rest of a script gives for the whole. *)
Lemma bind_messages {A B} (m : script num A) (f : A -> script num B) w :
  (forall a, keeps_messages (f a)) ->
  messages (snd ((m ≫= f) w)) = messages (snd (m w)).
Proof.
  intros Hf. rewrite bind_run.
  destruct (m w) as [[a | h] w']; cbn; [apply Hf | reflexivity].
Qed.

Lemma bind_calls {A B} (m : script num A) (f : A -> script num B) w :
  (forall a, keeps_calls (f a)) ->
  calls (snd ((m ≫= f) w)) = calls (snd (m w)).
Proof.
  intros Hf. rewrite bind_run.
  destruct (m w) as [[a | h] w']; cbn; [apply Hf | reflexivity].
Qed.

Lemma bind_page {A B} (m : script num A) (f : A -> script num B) w ev :
  (forall a, grows_page (f a)) ->
  In ev (page (snd (m w))) -> In ev (page (snd ((m ≫= f) w))).
Proof.
  intros Hf Hin. rewrite bind_run.
  destruct (m w) as [[a | h] w']; cbn in *; [| exact Hin].
  destruct (Hf a w') as [more ->]. apply in_or_app. left. exact Hin.
Qed.

(** ** The runs of the pieces of [main] *)

Lemma for_each_render {A : Type} (l : list A) (g : A -> ui_event num) (w : world num) :
  for_each l (fun x => render (g x)) w
  = (Done tt, World (messages w) (page w ++ map g l) (calls w)).
Proof.
  revert w. induction l as [| x l IH]; intros w.
  - cbn. rewrite app_nil_r. destruct w; reflexivity.
  - cbn [for_each]. rewrite bind_run. cbn. rewrite IH. cbn.
    rewrite <- app_assoc. reflexivity.
Qed.

Lemma main_without_key (w : world num) :
  key_present E = false ->
  main str_num E w
  = if clear_chat E
    then (Halted Rerun,
          World (Some []) (page w ++ [Title; Tabs; Sidebar]) (calls w))
    else (Halted Stop,
          World (messages w)
                (page w
                 ++ [Title; Tabs; Sidebar;
                     Error (py "GROQ_API_KEY not set. Please check your .env file.")])
                (calls w)).
Proof.
  intros Hkey. unfold main, when. rewrite Hkey.
  destruct (clear_chat E); run; rewrite <- ?app_assoc; reflexivity.
Qed.

Lemma main_with_key (w : world num) :
  key_present E = true -> clear_chat E = false ->
  main str_num E w
  = (chat_tab E;; esg_tab E;; score_tab str_num E;; carbon_footprint_tab E)
      (World (messages w) (page w ++ [Title; Tabs; Sidebar]) (calls w)).
Proof.
  intros Hkey Hclear. unfold main, when. rewrite Hkey, Hclear.
  run. rewrite <- !app_assoc. reflexivity.
Qed.

(** What the chat tab leaves in the history after a submitted prompt. *)
Lemma chat_tab_turn (w : world num) (prompt : pystr) :
  chat_input E = Some prompt -> prompt <> [] ->
  let history := default [] (messages w) in
  let user_message := Message (py "user") (PyStr prompt) in
  let conversation :=
    Message (py "system") (PyStr SYSTEM_PROMPT) :: history ++ [user_message] in
  messages (snd (chat_tab E w))
  = Some (history ++ user_message ::
            match post E conversation with
            | Response body =>
                match reply_content body with
                | Returns reply =>
                    if truthy reply then [Message (py "assistant") reply] else []
                | Raises _ => []
                end
            | _ => []
            end).
Proof.
  intros Hchat Hprompt history user_message conversation.
  assert (Htruthy : str_truthy prompt = true)
    by (destruct prompt; [now destruct Hprompt | reflexivity]).
  unfold chat_tab. rewrite Hchat. unfold when. rewrite Htruthy.
  assert (Hrun : forall h p c,
    messages (snd (
      (append_message user_message;;
       render (ChatMessage (py "user") (PyStr prompt));;
       history ← get_messages;
       let conversation :=
         [Message (py "system") (PyStr SYSTEM_PROMPT)] ++ history in
       response ← ask_groq E conversation;
       if truthy response then
         render (ChatMessage (py "assistant") response);;
         append_message (Message (py "assistant") response)
       else
         render (Error (py "Could not get a response from the model.")))
      (World (Some h) p c)))
    = Some (h ++ user_message ::
            match post E (Message (py "system") (PyStr SYSTEM_PROMPT)
                          :: h ++ [user_message]) with
            | Response body =>
                match reply_content body with
                | Returns reply =>
                    if truthy reply then [Message (py "assistant") reply] else []
                | Raises _ => []
                end
            | _ => []
            end)).
  { intros h p c. unfold ask_groq. run.
    destruct (post E _) as [e | code text | body]; run.
    - reflexivity.
    - reflexivity.
    - destruct (reply_content body) as [reply | []]; run; try reflexivity.
      destruct (truthy reply); run; [| reflexivity].
      rewrite <- app_assoc. reflexivity. }
  destruct w as [[h |] p c];
    rewrite bind_run; unfold init_messages, set_messages;
    cbn [messages page calls];
    rewrite bind_run; unfold get_messages; cbn [messages page calls];
    rewrite bind_run, for_each_render; cbn [messages page calls];
    rewrite bind_run; unfold render at 1; cbn [messages page calls];
    apply Hrun.
Qed.

(** The chat tab without a submitted prompt: it replays the history. *)
Lemma chat_tab_idle (w : world num) :
  chat_input E = None ->
  chat_tab E w
  = (Done tt,
     World (Some (default [] (messages w)))
           (page w
            ++ map (fun m => ChatMessage (role m) (content m))
                   (default [] (messages w))
            ++ [Form ChatView])
           (calls w)).
Proof.
  intros Hchat. unfold chat_tab. rewrite Hchat.
  destruct w as [[h |] p c];
    rewrite bind_run; unfold init_messages, set_messages;
    cbn [messages page calls];
    rewrite bind_run; unfold get_messages; cbn [messages page calls];
    rewrite bind_run, for_each_render; cbn [messages page calls];
    rewrite bind_run; unfold render at 1; cbn [messages page calls];
    cbn; rewrite <- ?app_assoc; reflexivity.
Qed.

(** The ESG tab after the analyze button: which conversation it posts,
    and which errors it shows. *)
Lemma esg_tab_run (w : world num) (f : uploaded_file) :
  file_uploader E = Some f -> analyze_report E = true ->
  let text := fst (read_pdf (document f)) in
  let after := snd (esg_tab E w) in
  calls after
  = calls w ++ (if str_truthy (strip text) then [esg_conversation text] else [])
  /\ (forall e, snd (read_pdf (document f)) = Some e ->
                In (Error (py "Could not read PDF: " ++ e)) (page after))
  /\ (str_truthy (strip text) = false ->
      In (Error (py "No readable text found in PDF.")) (page after)).
Proof.
  intros Hfile Hanalyze. cbv zeta.
  unfold esg_tab, extract_text_from_pdf, summarize_and_benchmark_esg, ask_groq.
  rewrite Hfile, Hanalyze.
  destruct (read_pdf (document f)) as [text [e |]]; cbn [fst snd]; run.
  all: destruct (str_truthy (strip text)); run.
  all: try (destruct (post E _) as [e' | code body | body]; run).
  all: try (destruct (reply_content body) as [reply | []]; run).
  all: try (destruct (truthy _); run).
  all: rewrite ?app_nil_r.
  all: (split; [reflexivity |]).
  all: split;
    [ intros e0 He0; try discriminate; injection He0 as <-
    | intros Hfalse; try discriminate ].
  all: rewrite ?in_app_iff; cbn [In]; auto 10.
Qed.

(** ** The claims about the script *)

(** C6, as the code has it.  Without a gateway API key (unset or empty) a
    run of the script shows the error and stops before any of the four
    views is rendered: no gateway call is made, the chat history is left
    as it was, and the estimator view is not rendered either.  (When the
    Clear Chat button was pressed the run empties the history and asks
    for a rerun before it reaches the key check.) *)
Theorem missing_key_stops_every_view (w : world num) :
  GROQ_API_KEY E = None \/ GROQ_API_KEY E = Some [] ->
  main str_num E w
  = if clear_chat E
    then (Halted Rerun,
          World (Some []) (page w ++ [Title; Tabs; Sidebar]) (calls w))
    else (Halted Stop,
          World (messages w)
                (page w
                 ++ [Title; Tabs; Sidebar;
                     Error (py "GROQ_API_KEY not set. Please check your .env file.")])
                (calls w)).
Proof.
  intros Hkey. apply main_without_key. unfold key_present.
  destruct Hkey as [-> | ->]; reflexivity.
Qed.

(** C8, as the code has it.  After the analyze button (with a key, and
    nothing submitted in the chat or the score form) the gateway analysis
    call is made exactly when the text accumulated before any extraction
    failure has a character that is not white space, and it is made on
    that text; an extraction failure is shown as an error; when the
    document cannot be opened at all no text is accumulated, no call is
    made and the second error is shown. *)
Theorem analysis_follows_extracted_text (w : world num) (f : uploaded_file) :
  key_present E = true -> clear_chat E = false ->
  chat_input E = None -> get_score E = false ->
  file_uploader E = Some f -> analyze_report E = true ->
  let text := fst (read_pdf (document f)) in
  let after := snd (main str_num E w) in
  calls after
  = calls w
    ++ (if existsb (fun c => negb (isspace c)) text
        then [esg_conversation text] else [])
  /\ (forall e, snd (read_pdf (document f)) = Some e ->
                In (Error (py "Could not read PDF: " ++ e)) (page after))
  /\ (forall e, document f = Unreadable e ->
                calls after = calls w
                /\ In (Error (py "No readable text found in PDF.")) (page after)).
Proof.
  intros Hkey Hclear Hchat Hscore Hfile Hanalyze. cbv zeta.
  rewrite (main_with_key w Hkey Hclear), bind_run, (chat_tab_idle _ Hchat).
  cbn [messages page calls].
  set (w1 := World _ _ _).
  destruct (esg_tab_run w1 f Hfile Hanalyze) as (Hcalls & Herror & Hempty).
  rewrite strip_truthy in Hcalls, Hempty.
  assert (Hrest_calls : forall a : unit,
             keeps_calls (score_tab str_num E;; carbon_footprint_tab E)).
  { intros _. pose proof (keeps_calls_score_tab Hscore).
    pose proof keeps_calls_carbon_footprint_tab. frame. }
  assert (Hrest_page : forall a : unit,
             grows_page (score_tab str_num E;; carbon_footprint_tab E)).
  { intros _. pose proof grows_page_score_tab.
    pose proof grows_page_carbon_footprint_tab. frame. }
  rewrite (bind_calls _ _ w1 Hrest_calls).
  split; [exact Hcalls |]. split.
  - intros e He. apply bind_page; [exact Hrest_page | exact (Herror e He)].
  - intros e Hdoc. rewrite Hdoc in Hcalls, Hempty. cbn in Hcalls, Hempty.
    split; [rewrite Hcalls; apply app_nil_r |].
    apply bind_page; [exact Hrest_page | exact (Hempty eq_refl)].
Qed.

(** ** Further runs of the pieces of [main] *)

Lemma ask_groq_run (c : list message) (w : world num) :
  ask_groq E c w
  = match post E c with
    | Response body =>
        match reply_content body with
        | Returns reply =>
            (Done reply, World (messages w) (page w) (calls w ++ [c]))
        | Raises (KeyError k) =>
            (Done PyNone,
             World (messages w)
                   (page w ++ [Error (py "Unexpected API response format: " ++ k)])
                   (calls w ++ [c]))
        | Raises e =>
            (Halted (Uncaught e), World (messages w) (page w) (calls w ++ [c]))
        end
    | HTTPError status_code text =>
        (Done PyNone,
         World (messages w)
               (page w ++ [Error (py "API Error " ++ str_int status_code
                                  ++ py ": " ++ text)])
               (calls w ++ [c]))
    | RequestFailed e =>
        (Done PyNone,
         World (messages w) (page w ++ [Error (py "Request failed: " ++ e)])
               (calls w ++ [c]))
    end.
Proof.
  unfold ask_groq. run.
  destruct (post E c) as [e | code text | body]; run; try reflexivity.
  destruct (reply_content body) as [reply | []]; reflexivity.
Qed.

Lemma posts_bind {A B} P n1 n2 (m : script num A) (f : A -> script num B) :
  posts P n1 m -> (forall a, posts P n2 (f a)) -> posts P (n1 + n2) (m ≫= f).
Proof.
  intros Hm Hf w. rewrite bind_run.
  destruct (Hm w) as (new1 & Hcalls1 & HP1 & Hlen1).
  destruct (m w) as [[a | h] w']; cbn [snd] in *.
  - destruct (Hf a w') as (new2 & Hcalls2 & HP2 & Hlen2).
    exists (new1 ++ new2). rewrite Hcalls2, Hcalls1, app_assoc.
    split; [reflexivity |]. split; [apply Forall_app; auto |].
    rewrite length_app. lia.
  - exists new1. split; [exact Hcalls1 |]. split; [exact HP1 | lia].
Qed.

Lemma posts_keeps_calls {A} P (s : script num A) :
  keeps_calls s -> posts P 0 s.
Proof.
  intros Hs w. exists []. rewrite Hs, app_nil_r. auto.
Qed.

Lemma posts_weaken {A} P n n' (s : script num A) :
  n <= n' -> posts P n s -> posts P n' s.
Proof.
  intros Hle Hs w. destruct (Hs w) as (new & Hcalls & HP & Hlen).
  exists new. split; [exact Hcalls |]. split; [exact HP | lia].
Qed.

Lemma posts_ask_groq (P : list message -> Prop) c :
  P c -> posts P 1 (ask_groq E c).
Proof.
  intros HP w. exists [c]. rewrite ask_groq_run.
  split; [| split; [repeat constructor; exact HP | cbn; lia]].
  destruct (post E c) as [e | code text | body]; [reflexivity | reflexivity |].
  destruct (reply_content body) as [reply | []]; reflexivity.
Qed.

Lemma keeps_calls_extract_text_from_pdf f : keeps_calls (extract_text_from_pdf (num := num) f).
Proof. unfold extract_text_from_pdf. frame. Qed.

Lemma keeps_calls_init_messages : keeps_calls (init_messages (num := num)).
Proof. intros [[h |] p c]; reflexivity. Qed.

Lemma keeps_calls_get_messages : keeps_calls (get_messages (num := num)).
Proof. intros [[h |] p c]; reflexivity. Qed.

Lemma keeps_calls_append_message m : keeps_calls (append_message (num := num) m).
Proof. intros [[h |] p c]; reflexivity. Qed.

Lemma keeps_calls_for_each_render {A} (l : list A) (g : A -> ui_event num) :
  keeps_calls (for_each l (fun x => render (g x))).
Proof. intros w. rewrite for_each_render. reflexivity. Qed.

Lemma posts_chat_tab :
  posts opens_with_system_prompt
        (Nat.b2n (match chat_input E with
                  | Some prompt => str_truthy prompt
                  | None => false
                  end))
        (chat_tab E).
Proof.
  unfold chat_tab.
  apply (posts_bind _ 0 _); [apply posts_keeps_calls, keeps_calls_init_messages |].
  intros _.
  apply (posts_bind _ 0 _); [apply posts_keeps_calls, keeps_calls_get_messages |].
  intros history.
  apply (posts_bind _ 0 _);
    [apply posts_keeps_calls, keeps_calls_for_each_render |].
  intros _.
  apply (posts_bind _ 0 _); [apply posts_keeps_calls, keeps_calls_render |].
  intros _.
  destruct (chat_input E) as [prompt |];
    [| apply posts_keeps_calls, keeps_calls_ret].
  unfold when. destruct (str_truthy prompt);
    [| apply posts_keeps_calls, keeps_calls_ret].
  apply (posts_bind _ 0 _); [apply posts_keeps_calls, keeps_calls_append_message |].
  intros _.
  apply (posts_bind _ 0 _); [apply posts_keeps_calls, keeps_calls_render |].
  intros _.
  apply (posts_bind _ 0 _); [apply posts_keeps_calls, keeps_calls_get_messages |].
  intros history'. cbv zeta.
  apply (posts_bind _ 1 0); [apply posts_ask_groq; eexists; reflexivity |].
  intros response. apply posts_keeps_calls.
  pose proof keeps_calls_append_message. frame.
Qed.

Lemma posts_esg_tab :
  posts opens_with_system_prompt (Nat.b2n (analyze_report E)) (esg_tab E).
Proof.
  unfold esg_tab.
  apply (posts_bind _ 0 _); [apply posts_keeps_calls, keeps_calls_render |].
  intros _.
  destruct (file_uploader E) as [f |];
    [| apply (posts_weaken _ 0); [lia | apply posts_keeps_calls, keeps_calls_ret]].
  apply (posts_bind _ 0 _); [apply posts_keeps_calls, keeps_calls_render |].
  intros _. unfold when.
  destruct (analyze_report E); [| apply posts_keeps_calls, keeps_calls_ret].
  apply (posts_bind _ 0 _);
    [apply posts_keeps_calls, keeps_calls_extract_text_from_pdf |].
  intros text.
  destruct (str_truthy (strip text));
    [| apply (posts_weaken _ 0); [cbn; lia | apply posts_keeps_calls; frame]].
  apply (posts_bind _ 1 0);
    [apply posts_ask_groq; eexists; reflexivity |].
  intros result. apply posts_keeps_calls. frame.
Qed.

Lemma posts_score_tab :
  posts opens_with_system_prompt (Nat.b2n (get_score E)) (score_tab str_num E).
Proof.
  unfold score_tab.
  apply (posts_bind _ 0 _); [apply posts_keeps_calls, keeps_calls_render |].
  intros _. cbv zeta. unfold when.
  destruct (get_score E); [| apply posts_keeps_calls, keeps_calls_ret].
  apply (posts_bind _ 1 0);
    [apply posts_ask_groq; eexists; reflexivity |].
  intros result. apply posts_keeps_calls. frame.
Qed.

Lemma posts_main :
  posts opens_with_system_prompt
        (Nat.b2n (match chat_input E with
                  | Some prompt => str_truthy prompt
                  | None => false
                  end)
         + Nat.b2n (analyze_report E) + Nat.b2n (get_score E))
        (main str_num E).
Proof.
  unfold main.
  apply (posts_bind _ 0 _); [apply posts_keeps_calls, keeps_calls_render |].
  intros _.
  apply (posts_bind _ 0 _); [apply posts_keeps_calls, keeps_calls_render |].
  intros _.
  apply (posts_bind _ 0 _); [apply posts_keeps_calls, keeps_calls_render |].
  intros _.
  apply (posts_bind _ 0 _).
  { apply posts_keeps_calls. unfold when. destruct (clear_chat E); [| frame].
    intros w. reflexivity. }
  intros _.
  apply (posts_bind _ 0 _); [apply posts_keeps_calls; unfold when; frame |].
  intros _.
  rewrite <- Nat.add_assoc.
  apply posts_bind; [apply posts_chat_tab |]. intros _.
  apply posts_bind; [apply posts_esg_tab |]. intros _.
  rewrite <- (Nat.add_0_r (Nat.b2n (get_score E))).
  apply posts_bind; [apply posts_score_tab |]. intros _.
  apply posts_keeps_calls, keeps_calls_carbon_footprint_tab.
Qed.

(** ** Further properties: the gateway wrapper *)

Lemma reply_content_dict (fields : gmap pystr pyval) :
  reply_content (PyDict fields)
  = match fields !! py "choices" with
    | Some choices =>
        first ← getitem0 choices;
        msg ← getitem first (py "message");
        getitem msg (py "content")
    | None => Raises (KeyError (py "'choices'"))
    end.
Proof.
  unfold reply_content.
  assert (Hget : getitem (PyDict fields) (py "choices")
                 = match fields !! py "choices" with
                   | Some x => Returns x
                   | None => Raises (KeyError (py "'choices'"))
                   end)
    by (unfold getitem; destruct (fields !! py "choices"); reflexivity).
  rewrite Hget. destruct (fields !! py "choices"); reflexivity.
Qed.

(** X8.  A call of [ask_groq] posts its conversation to the gateway exactly
    once, whatever the gateway does (there is no retry), and it never
    touches the chat history. *)
Theorem ask_groq_posts_exactly_once (c : list message) (w : world num) :
  calls (snd (ask_groq E c w)) = calls w ++ [c]
  /\ messages (snd (ask_groq E c w)) = messages w.
Proof.
  rewrite ask_groq_run.
  destruct (post E c) as [e | code text | body]; [auto | auto |].
  destruct (reply_content body) as [reply | []]; auto.
Qed.

(** X9.  When the body is an object whose "choices" is a list that starts
    with an object whose "message" is an object with a "content", the
    wrapper returns that content as it is and shows nothing; the other
    choices and the other fields are ignored. *)
Theorem ask_groq_returns_first_choice
    (c : list message) (w : world num)
    (fields first msg : gmap pystr pyval) (others : list pyval) (reply : pyval) :
  post E c = Response (PyDict fields) ->
  fields !! py "choices" = Some (PyList (PyDict first :: others)) ->
  first !! py "message" = Some (PyDict msg) ->
  msg !! py "content" = Some reply ->
  ask_groq E c w
  = (Done reply, World (messages w) (page w) (calls w ++ [c])).
Proof.
  intros Hpost Hchoices Hmessage Hcontent.
  rewrite ask_groq_run, Hpost, reply_content_dict, Hchoices.
  unfold mbind, result_bind, getitem0, getitem.
  rewrite Hmessage, Hcontent. reflexivity.
Qed.

(** X10.  When the body is an object without "choices" (an error object,
    say) the wrapper returns [None] and shows the error that names the
    missing key between quotes. *)
Theorem ask_groq_missing_choices
    (c : list message) (w : world num) (fields : gmap pystr pyval) :
  post E c = Response (PyDict fields) ->
  fields !! py "choices" = None ->
  ask_groq E c w
  = (Done PyNone,
     World (messages w)
           (page w ++ [Error (py "Unexpected API response format: 'choices'")])
           (calls w ++ [c])).
Proof.
  intros Hpost Hchoices.
  rewrite ask_groq_run, Hpost, reply_content_dict, Hchoices. reflexivity.
Qed.

(** X11.  When the body has an empty list of choices the [IndexError] of
    [[0]] is not among the exceptions the wrapper catches: the run ends
    there, with the call made and no error message of the wrapper. *)
Theorem ask_groq_empty_choices_uncaught
    (c : list message) (w : world num) (fields : gmap pystr pyval) :
  post E c = Response (PyDict fields) ->
  fields !! py "choices" = Some (PyList []) ->
  ask_groq E c w
  = (Halted (Uncaught IndexError),
     World (messages w) (page w) (calls w ++ [c])).
Proof.
  intros Hpost Hchoices.
  rewrite ask_groq_run, Hpost, reply_content_dict, Hchoices. reflexivity.
Qed.

(** X12.  The wrapper shows at most one error, and when it shows one it
    returns [None]: a reply is never returned together with an error. *)
Theorem ask_groq_error_means_none (c : list message) (w : world num) :
  page (snd (ask_groq E c w)) = page w
  \/ (exists msg, page (snd (ask_groq E c w)) = page w ++ [Error msg])
     /\ fst (ask_groq E c w) = Done PyNone.
Proof.
  rewrite ask_groq_run.
  destruct (post E c) as [e | code text | body]; [right; eauto | right; eauto |].
  destruct (reply_content body) as [reply | []]; cbn [fst snd page]; eauto.
Qed.

(** ** Further properties: the PDF wrapper *)

Lemma read_pages_clean (pages : list page_outcome) (text : pystr) :
  forallb (fun p => negb (page_raises p)) pages = true ->
  read_pages pages text = (text ++ concat (map page_text pages), None).
Proof.
  revert text. induction pages as [| p pages IH]; intros text Hclean.
  - cbn. rewrite app_nil_r. reflexivity.
  - cbn [forallb] in Hclean. apply andb_prop in Hclean as [Hp Hrest].
    destruct p as [t | | e]; [| | discriminate Hp];
      cbn [read_pages map concat page_text]; rewrite (IH _ Hrest);
      rewrite <- ?app_assoc; reflexivity.
Qed.

Lemma read_pages_stops (before after : list page_outcome) (e text : pystr) :
  forallb (fun p => negb (page_raises p)) before = true ->
  read_pages (before ++ PageRaises e :: after) text
  = (text ++ concat (map page_text before), Some e).
Proof.
  revert text. induction before as [| p before IH]; intros text Hclean.
  - cbn. rewrite app_nil_r. reflexivity.
  - cbn [forallb] in Hclean. apply andb_prop in Hclean as [Hp Hrest].
    destruct p as [t | | e']; [| | discriminate Hp];
      cbn [app read_pages map concat page_text]; rewrite (IH _ Hrest);
      rewrite <- ?app_assoc; reflexivity.
Qed.

(** X13.  When no page raises, the extracted text is the concatenation of
    the texts of the pages in page order, a page without text adding
    nothing, and nothing is shown. *)
Theorem extract_text_concatenates_pages
    (f : uploaded_file) (pages : list page_outcome) (w : world num) :
  document f = Pages pages ->
  forallb (fun p => negb (page_raises p)) pages = true ->
  extract_text_from_pdf f w = (Done (concat (map page_text pages)), w).
Proof.
  intros Hdoc Hclean. unfold extract_text_from_pdf, read_pdf.
  rewrite Hdoc, (read_pages_clean _ _ Hclean). reflexivity.
Qed.

(** X14.  When a page raises, the extraction returns the text of the pages
    before it, shows the exception once and does not look at the pages
    after it; it does not raise itself. *)
Theorem extract_text_stops_at_first_failure
    (f : uploaded_file) (before after : list page_outcome) (e : pystr)
    (w : world num) :
  document f = Pages (before ++ PageRaises e :: after) ->
  forallb (fun p => negb (page_raises p)) before = true ->
  extract_text_from_pdf f w
  = (Done (concat (map page_text before)),
     World (messages w) (page w ++ [Error (py "Could not read PDF: " ++ e)])
           (calls w)).
Proof.
  intros Hdoc Hclean. unfold extract_text_from_pdf, read_pdf.
  rewrite Hdoc, (read_pages_stops _ _ _ _ Hclean). reflexivity.
Qed.

(** ** Further runs of the tabs *)

Lemma chat_tab_no_prompt (w : world num) :
  chat_input E = None \/ chat_input E = Some [] ->
  chat_tab E w
  = (Done tt,
     World (Some (default [] (messages w)))
           (page w
            ++ map (fun m => ChatMessage (role m) (content m))
                   (default [] (messages w))
            ++ [Form ChatView])
           (calls w)).
Proof.
  intros [Hchat | Hchat]; [exact (chat_tab_idle w Hchat) |].
  unfold chat_tab. rewrite Hchat. unfold when, str_truthy.
  destruct w as [[h |] p c];
    rewrite bind_run; unfold init_messages, set_messages;
    cbn [messages page calls];
    rewrite bind_run; unfold get_messages; cbn [messages page calls];
    rewrite bind_run, for_each_render; cbn [messages page calls];
    rewrite bind_run; unfold render at 1; cbn [messages page calls];
    cbn; rewrite <- ?app_assoc; reflexivity.
Qed.

(** The whole run of the chat tab on a submitted prompt. *)
Lemma chat_tab_turn_run (w : world num) (prompt : pystr) :
  chat_input E = Some prompt -> prompt <> [] ->
  let history := default [] (messages w) in
  let user_message := Message (py "user") (PyStr prompt) in
  let conversation :=
    Message (py "system") (PyStr SYSTEM_PROMPT) :: history ++ [user_message] in
  let shown :=
    page w ++ map (fun m => ChatMessage (role m) (content m)) history
    ++ [Form ChatView; ChatMessage (py "user") (PyStr prompt)] in
  let failed (report : pystr) :=
    (Done tt,
     World (Some (history ++ [user_message]))
           (shown ++ [Error report;
                      Error (py "Could not get a response from the model.")])
           (calls w ++ [conversation])) in
  chat_tab E w
  = match post E conversation with
    | Response body =>
        match reply_content body with
        | Returns reply =>
            if truthy reply then
              (Done tt,
               World (Some (history ++ [user_message;
                                        Message (py "assistant") reply]))
                     (shown ++ [ChatMessage (py "assistant") reply])
                     (calls w ++ [conversation]))
            else
              (Done tt,
               World (Some (history ++ [user_message]))
                     (shown ++ [Error (py "Could not get a response from the model.")])
                     (calls w ++ [conversation]))
        | Raises (KeyError k) =>
            failed (py "Unexpected API response format: " ++ k)
        | Raises e =>
            (Halted (Uncaught e),
             World (Some (history ++ [user_message])) shown
                   (calls w ++ [conversation]))
        end
    | HTTPError status_code text =>
        failed (py "API Error " ++ str_int status_code ++ py ": " ++ text)
    | RequestFailed e => failed (py "Request failed: " ++ e)
    end.
Proof.
  intros Hchat Hprompt. cbv zeta.
  assert (Htruthy : str_truthy prompt = true)
    by (destruct prompt; [now destruct Hprompt | reflexivity]).
  unfold chat_tab. rewrite Hchat. unfold when. rewrite Htruthy.
  destruct w as [[h |] p c];
    rewrite bind_run; unfold init_messages, set_messages;
    cbn [messages page calls];
    rewrite bind_run; unfold get_messages; cbn [messages page calls];
    rewrite bind_run, for_each_render; cbn [messages page calls];
    rewrite bind_run; unfold render at 1; cbn [messages page calls];
    rewrite bind_run; unfold append_message, get_messages, set_messages;
    rewrite bind_run; cbn [messages page calls];
    rewrite bind_run; unfold render at 1; cbn [messages page calls];
    rewrite bind_run; cbn [messages page calls];
    rewrite bind_run, ask_groq_run; cbn [messages page calls default app];
    (destruct (post E _) as [e | code text | body];
     [| | destruct (reply_content body) as [reply | []]]);
    run; cbn [truthy]; try destruct (truthy reply); run;
    rewrite <- ?app_assoc; reflexivity.
Qed.

Lemma esg_tab_unpressed (w : world num) :
  analyze_report E = false ->
  esg_tab E w
  = (Done tt,
     World (messages w)
           (page w
            ++ Form EsgView
               :: match file_uploader E with
                  | Some f => [Success (py "File uploaded: " ++ name f)]
                  | None => []
                  end)
           (calls w)).
Proof.
  intros Hidle. unfold esg_tab. rewrite Hidle.
  destruct (file_uploader E) as [f |]; run; rewrite <- ?app_assoc; reflexivity.
Qed.

Lemma score_tab_unpressed (w : world num) :
  get_score E = false ->
  score_tab str_num E w
  = (Done tt, World (messages w) (page w ++ [Form ScoreView]) (calls w)).
Proof. intros Hidle. unfold score_tab. rewrite Hidle. reflexivity. Qed.

Lemma carbon_footprint_tab_unpressed (w : world num) :
  estimate_button E = false ->
  carbon_footprint_tab E w
  = (Done tt, World (messages w) (page w ++ [Form CarbonView]) (calls w)).
Proof. intros Hidle. unfold carbon_footprint_tab. rewrite Hidle. reflexivity. Qed.

Lemma posts_nothing {A} P (s : script num A) : posts P 0 s -> keeps_calls s.
Proof.
  intros Hs w. destruct (Hs w) as (new & Hcalls & _ & Hlen).
  destruct new; [| cbn in Hlen; lia]. rewrite Hcalls. apply app_nil_r.
Qed.

Lemma bind_calls_in {A B} P n (m : script num A) (f : A -> script num B) w c :
  (forall a, posts P n (f a)) ->
  In c (calls (snd (m w))) -> In c (calls (snd ((m ≫= f) w))).
Proof.
  intros Hf Hin. rewrite bind_run.
  destruct (m w) as [[a | h] w']; cbn [snd] in *; [| exact Hin].
  destruct (Hf a w') as (new & -> & _). apply in_or_app. left. exact Hin.
Qed.

Lemma rest_after_chat_keeps_messages (a : unit) :
  keeps_messages (esg_tab E;; score_tab str_num E;; carbon_footprint_tab E).
Proof.
  pose proof keeps_messages_esg_tab. pose proof keeps_messages_score_tab.
  pose proof keeps_messages_carbon_footprint_tab. frame.
Qed.

Lemma rest_after_chat_grows_page (a : unit) :
  grows_page (esg_tab E;; score_tab str_num E;; carbon_footprint_tab E).
Proof.
  assert (grows_page (esg_tab E)).
  { unfold esg_tab, when, extract_text_from_pdf, summarize_and_benchmark_esg.
    pose proof grows_page_ask_groq. frame. }
  pose proof grows_page_score_tab. pose proof grows_page_carbon_footprint_tab.
  frame.
Qed.

Lemma rest_after_chat_posts (a : unit) :
  posts opens_with_system_prompt
        (Nat.b2n (analyze_report E) + (Nat.b2n (get_score E) + 0))
        (esg_tab E;; score_tab str_num E;; carbon_footprint_tab E).
Proof.
  apply posts_bind; [apply posts_esg_tab |]. intros _.
  apply posts_bind; [apply posts_score_tab |]. intros _.
  apply posts_keeps_calls, keeps_calls_carbon_footprint_tab.
Qed.

(** ** Further properties: the whole script *)

(** X15.  The Clear Chat button empties the history and asks for a rerun
    before anything else is looked at: with or without a key, whatever
    else was pressed, no view is rendered and no call is made. *)
Theorem clear_chat_empties_history (w : world num) :
  clear_chat E = true ->
  main str_num E w
  = (Halted Rerun,
     World (Some []) (page w ++ [Title; Tabs; Sidebar]) (calls w)).
Proof.
  intros Hclear. unfold main, when. rewrite Hclear.
  run. rewrite <- ?app_assoc. reflexivity.
Qed.

(** X16.  With a key and nothing pressed or submitted (an absent or empty
    chat input counts as nothing), a run replays the history in order,
    renders the four forms, leaves the history as it was (an absent one
    becomes the empty one) and makes no call. *)
Theorem idle_run_replays_history (w : world num) :
  key_present E = true -> clear_chat E = false ->
  chat_input E = None \/ chat_input E = Some [] ->
  analyze_report E = false -> get_score E = false ->
  estimate_button E = false ->
  main str_num E w
  = (Done tt,
     World (Some (default [] (messages w)))
           (page w ++ [Title; Tabs; Sidebar]
            ++ map (fun m => ChatMessage (role m) (content m))
                   (default [] (messages w))
            ++ [Form ChatView; Form EsgView]
            ++ match file_uploader E with
               | Some f => [Success (py "File uploaded: " ++ name f)]
               | None => []
               end
            ++ [Form ScoreView; Form CarbonView])
           (calls w)).
Proof.
  intros Hkey Hclear Hchat Hanalyze Hscore Hestimate.
  rewrite (main_with_key w Hkey Hclear).
  rewrite bind_run, (chat_tab_no_prompt _ Hchat).
  rewrite bind_run, (esg_tab_unpressed _ Hanalyze).
  rewrite bind_run, (score_tab_unpressed _ Hscore).
  rewrite (carbon_footprint_tab_unpressed _ Hestimate).
  cbn [messages page calls].
  destruct (file_uploader E); cbn [app]; rewrite <- ?app_assoc; reflexivity.
Qed.

(** X17.  A chat turn sends the gateway the system prompt, then the whole
    history in order, then the new message; with the other two AI buttons
    not pressed this is the only call of the run. *)
Theorem chat_turn_posts_whole_history (w : world num) (prompt : pystr) :
  key_present E = true -> clear_chat E = false ->
  chat_input E = Some prompt -> prompt <> [] ->
  analyze_report E = false -> get_score E = false ->
  calls (snd (main str_num E w))
  = calls w
    ++ [Message (py "system") (PyStr SYSTEM_PROMPT)
        :: default [] (messages w) ++ [Message (py "user") (PyStr prompt)]].
Proof.
  intros Hkey Hclear Hchat Hprompt Hanalyze Hscore.
  rewrite (main_with_key w Hkey Hclear), bind_calls.
  - rewrite (chat_tab_turn_run _ prompt Hchat Hprompt). cbv zeta.
    cbn [messages page calls].
    destruct (post E _) as [e | code text | body]; [reflexivity | reflexivity |].
    destruct (reply_content body) as [reply | []]; try reflexivity.
    destruct (truthy reply); reflexivity.
  - intros a. apply (posts_nothing opens_with_system_prompt).
    pose proof (rest_after_chat_posts a) as Hrest.
    rewrite Hanalyze, Hscore in Hrest. exact Hrest.
Qed.

(** X18.  When the body of the gateway makes the way to the reply raise
    anything but a [KeyError] (no choice in the list, a body that is not
    an object), the run ends in the chat tab with that exception uncaught,
    which is left to Streamlit to report: the user's message is in the
    history and was rendered, the call was made, and the script reaches
    none of its own [st.error] calls and none of the code of the other
    three tabs. *)
Theorem chat_turn_uncaught_exception (w : world num) (prompt : pystr)
    (body : pyval) (e : exn) :
  key_present E = true -> clear_chat E = false ->
  chat_input E = Some prompt -> prompt <> [] ->
  let history := default [] (messages w) in
  let user_message := Message (py "user") (PyStr prompt) in
  let conversation :=
    Message (py "system") (PyStr SYSTEM_PROMPT) :: history ++ [user_message] in
  post E conversation = Response body ->
  reply_content body = Raises e ->
  (forall k, e <> KeyError k) ->
  main str_num E w
  = (Halted (Uncaught e),
     World (Some (history ++ [user_message]))
           (page w ++ [Title; Tabs; Sidebar]
            ++ map (fun m => ChatMessage (role m) (content m)) history
            ++ [Form ChatView; ChatMessage (py "user") (PyStr prompt)])
           (calls w ++ [conversation])).
Proof.
  intros Hkey Hclear Hchat Hprompt history user_message conversation
         Hpost Hraise Hother.
  rewrite (main_with_key w Hkey Hclear), bind_run.
  rewrite (chat_tab_turn_run _ prompt Hchat Hprompt). cbv zeta.
  cbn [messages page calls]. fold history user_message conversation.
  rewrite Hpost, Hraise.
  destruct e; try (now destruct (Hother key_repr));
    rewrite <- ?app_assoc; reflexivity.
Qed.

(** X19.  Every conversation a run posts to the gateway, from whichever
    tab, opens with the system prompt; a run only adds to the log of
    calls. *)
Theorem every_call_opens_with_system_prompt (w : world num) :
  exists new,
    calls (snd (main str_num E w)) = calls w ++ new
    /\ Forall opens_with_system_prompt new.
Proof.
  destruct (posts_main w) as (new & Hcalls & Hopens & _).
  exists new. auto.
Qed.

(** X20.  A run makes at most one gateway call for each of the three AI
    actions that was triggered (a chat prompt that is not empty, the
    analyze button, the score button) and none otherwise: no call is
    repeated. *)
Theorem at_most_one_call_per_action (w : world num) :
  length (calls (snd (main str_num E w)))
  <= length (calls w)
     + (Nat.b2n (match chat_input E with
                 | Some prompt => str_truthy prompt
                 | None => false
                 end)
        + Nat.b2n (analyze_report E) + Nat.b2n (get_score E)).
Proof.
  destruct (posts_main w) as (new & Hcalls & _ & Hlen).
  rewrite Hcalls, length_app. lia.
Qed.

(** X21.  Without a chat prompt (and without Clear Chat) a run with a key
    leaves the history as it was, an absent one becoming the empty one,
    whatever the other tabs do and however the gateway answers them. *)
Theorem history_untouched_without_prompt (w : world num) :
  key_present E = true -> clear_chat E = false ->
  chat_input E = None \/ chat_input E = Some [] ->
  messages (snd (main str_num E w)) = Some (default [] (messages w)).
Proof.
  intros Hkey Hclear Hchat.
  rewrite (main_with_key w Hkey Hclear), bind_messages
    by apply rest_after_chat_keeps_messages.
  rewrite (chat_tab_no_prompt _ Hchat). reflexivity.
Qed.

(** X22.  When the gateway rejects a chat turn with a status that is not a
    success, the page shows the status code in decimal with the body of
    the response, and after it the generic error of the chat tab. *)
Theorem rejected_chat_turn_shows_status (w : world num) (prompt : pystr)
    (status_code : Z) (text : pystr) :
  key_present E = true -> clear_chat E = false ->
  chat_input E = Some prompt -> prompt <> [] ->
  post E (Message (py "system") (PyStr SYSTEM_PROMPT)
          :: default [] (messages w) ++ [Message (py "user") (PyStr prompt)])
  = HTTPError status_code text ->
  exists before after,
    page (snd (main str_num E w))
    = before
      ++ [Error (py "API Error " ++ str_int status_code ++ py ": " ++ text);
          Error (py "Could not get a response from the model.")]
      ++ after.
Proof.
  intros Hkey Hclear Hchat Hprompt Hpost.
  rewrite (main_with_key w Hkey Hclear), bind_run.
  rewrite (chat_tab_turn_run _ prompt Hchat Hprompt). cbv zeta.
  cbn [messages page calls]. rewrite Hpost.
  set (w1 := World _ _ _).
  destruct (rest_after_chat_grows_page tt w1) as [more Hmore].
  rewrite Hmore. subst w1. cbn [page].
  exists (page w ++ [Title; Tabs; Sidebar]
          ++ map (fun m => ChatMessage (role m) (content m))
                 (default [] (messages w))
          ++ [Form ChatView; ChatMessage (py "user") (PyStr prompt)]), more.
  rewrite <- !app_assoc. reflexivity.
Qed.

Lemma main_messages_after_chat (w : world num) :
  key_present E = true -> clear_chat E = false ->
  messages (snd (main str_num E w))
  = messages (snd (chat_tab E
       (World (messages w) (page w ++ [Title; Tabs; Sidebar]) (calls w)))).
Proof.
  intros Hkey Hclear.
  rewrite (main_with_key w Hkey Hclear), bind_messages
    by apply rest_after_chat_keeps_messages.
  reflexivity.
Qed.

Lemma rest_after_esg_grows_page (a : unit) :
  grows_page (score_tab str_num E;; carbon_footprint_tab E).
Proof.
  pose proof grows_page_score_tab. pose proof grows_page_carbon_footprint_tab.
  frame.
Qed.

(** X23.  When the analysis call succeeds, its reply is shown as the ESG
    summary if it is truthy; an empty or null reply is reported as a
    failed analysis instead. *)
Theorem analysis_reply_is_shown_or_reported
    (w : world num) (f : uploaded_file) (body reply : pyval) :
  key_present E = true -> clear_chat E = false ->
  chat_input E = None \/ chat_input E = Some [] ->
  file_uploader E = Some f -> analyze_report E = true ->
  existsb (fun c => negb (isspace c)) (fst (read_pdf (document f))) = true ->
  post E (esg_conversation (fst (read_pdf (document f)))) = Response body ->
  reply_content body = Returns reply ->
  In (if truthy reply then EsgSummary reply
      else Error (py "Failed to analyze report."))
     (page (snd (main str_num E w))).
Proof.
  intros Hkey Hclear Hchat Hfile Hanalyze Htext Hpost Hreply.
  rewrite (main_with_key w Hkey Hclear), bind_run, (chat_tab_no_prompt _ Hchat).
  cbn [messages page calls].
  apply bind_page; [apply rest_after_esg_grows_page |].
  rewrite <- strip_truthy in Htext.
  unfold esg_tab, extract_text_from_pdf, summarize_and_benchmark_esg, ask_groq.
  rewrite Hfile, Hanalyze. unfold esg_conversation in Hpost.
  destruct (read_pdf (document f)) as [text [e |]]; cbn [fst] in Htext, Hpost;
    run; rewrite Htext; run; rewrite Hpost, Hreply; run;
    destruct (truthy reply); run; rewrite !in_app_iff; cbn [In]; auto.
Qed.

(** X24.  A document that reads without an exception but only as white
    space (a scan, say) is not sent to the gateway: the run shows "No
    readable text found in PDF." and no extraction error. *)
Theorem blank_document_is_not_analysed (w : world num) (f : uploaded_file) :
  key_present E = true -> clear_chat E = false ->
  chat_input E = None \/ chat_input E = Some [] ->
  file_uploader E = Some f -> analyze_report E = true ->
  get_score E = false -> estimate_button E = false ->
  snd (read_pdf (document f)) = None ->
  existsb (fun c => negb (isspace c)) (fst (read_pdf (document f))) = false ->
  main str_num E w
  = (Done tt,
     World (Some (default [] (messages w)))
           (page w ++ [Title; Tabs; Sidebar]
            ++ map (fun m => ChatMessage (role m) (content m))
                   (default [] (messages w))
            ++ [Form ChatView; Form EsgView;
                Success (py "File uploaded: " ++ name f);
                Error (py "No readable text found in PDF.");
                Form ScoreView; Form CarbonView])
           (calls w)).
Proof.
  intros Hkey Hclear Hchat Hfile Hanalyze Hscore Hestimate Hread Htext.
  rewrite (main_with_key w Hkey Hclear), bind_run, (chat_tab_no_prompt _ Hchat).
  rewrite <- strip_truthy in Htext.
  rewrite bind_run. unfold esg_tab at 1, extract_text_from_pdf.
  rewrite Hfile, Hanalyze.
  destruct (read_pdf (document f)) as [text [e |]]; [discriminate Hread |].
  cbn [fst] in Htext. run. rewrite Htext.
  rewrite (score_tab_unpressed _ Hscore).
  rewrite (carbon_footprint_tab_unpressed _ Hestimate).
  cbn [messages page calls]. rewrite <- !app_assoc. reflexivity.
Qed.

(** X25.  The score button makes one call: the system prompt and the
    assessment prompt of the form's material and weight, in which a flag
    reads "Yes" exactly when its radio is on "Yes". *)
Theorem score_button_posts_the_form (w : world num) :
  key_present E = true -> clear_chat E = false ->
  chat_input E = None \/ chat_input E = Some [] ->
  analyze_report E = false -> get_score E = true ->
  calls (snd (main str_num E w))
  = calls w
    ++ [[Message (py "system") (PyStr SYSTEM_PROMPT);
         Message (py "user")
           (PyStr (assessment_prompt (score_material E)
                     (str_num (score_weight E))
                     (bool_decide (recyclable_radio E = py "Yes"))
                     (bool_decide (renewable_radio E = py "Yes"))))]].
Proof.
  intros Hkey Hclear Hchat Hanalyze Hscore.
  rewrite (main_with_key w Hkey Hclear), bind_run, (chat_tab_no_prompt _ Hchat).
  rewrite bind_run, (esg_tab_unpressed _ Hanalyze).
  rewrite bind_calls by (intros _; apply keeps_calls_carbon_footprint_tab).
  unfold score_tab, when. rewrite Hscore.
  rewrite bind_run. unfold render at 1. cbn [messages page calls].
  rewrite bind_calls.
  - rewrite ai_sustainability_assessment_posts. reflexivity.
  - intros result. frame.
Qed.

(** C7, as the code has it.  In a chat turn (a key, a submitted prompt
    that is not empty) the user's message is appended to the history.
    - When the request raises without a response (a timeout, a connection
      failure), when [raise_for_status] raises (a 4xx or 5xx status) or
      when the body lacks a key on the way to the reply, nothing more is
      appended and the page shows "Could not get a response from the
      model.".
    - When the gateway hands back a body with a reply, the reply is
      appended after the user's message, and shown, exactly when it is
      truthy (a text that is not empty); an empty or null reply is treated
      as the failures above.
    - When the way to the reply raises another exception, the run ends
      there with that exception uncaught, the user's message being the
      last of the history. *)
Theorem chat_turn_history (w : world num) (prompt : pystr) :
  key_present E = true -> clear_chat E = false ->
  chat_input E = Some prompt -> prompt <> [] ->
  let history := default [] (messages w) in
  let user_message := Message (py "user") (PyStr prompt) in
  let conversation :=
    Message (py "system") (PyStr SYSTEM_PROMPT) :: history ++ [user_message] in
  let after := snd (main str_num E w) in
  let no_reply :=
    messages after = Some (history ++ [user_message])
    /\ In (Error (py "Could not get a response from the model.")) (page after) in
  match post E conversation with
  | Response body =>
      match reply_content body with
      | Returns reply =>
          if truthy reply then
            messages after
            = Some (history ++ [user_message; Message (py "assistant") reply])
            /\ In (ChatMessage (py "assistant") reply) (page after)
          else no_reply
      | Raises (KeyError _) => no_reply
      | Raises e =>
          fst (main str_num E w) = Halted (Uncaught e)
          /\ messages after = Some (history ++ [user_message])
      end
  | HTTPError _ _ | RequestFailed _ => no_reply
  end.
Proof.
  intros Hkey Hclear Hchat Hprompt. cbv zeta.
  rewrite (main_with_key w Hkey Hclear).
  pose proof (chat_tab_turn_run
                (World (messages w) (page w ++ [Title; Tabs; Sidebar]) (calls w))
                prompt Hchat Hprompt) as Hrun.
  cbv zeta in Hrun. cbn [messages page calls] in Hrun.
  set (w0 := World (messages w) (page w ++ [Title; Tabs; Sidebar]) (calls w)) in *.
  assert (Hno_reply : forall o shown posted,
    chat_tab E w0
    = (o, World (Some (default [] (messages w)
                       ++ [Message (py "user") (PyStr prompt)]))
                shown posted) ->
    In (Error (py "Could not get a response from the model.")) shown ->
    messages (snd ((chat_tab E;; esg_tab E;; score_tab str_num E;;
                    carbon_footprint_tab E) w0))
    = Some (default [] (messages w) ++ [Message (py "user") (PyStr prompt)])
    /\ In (Error (py "Could not get a response from the model."))
          (page (snd ((chat_tab E;; esg_tab E;; score_tab str_num E;;
                       carbon_footprint_tab E) w0)))).
  { intros o shown posted Hchat_run Hshown. split.
    - rewrite bind_messages by apply rest_after_chat_keeps_messages.
      rewrite Hchat_run. reflexivity.
    - apply bind_page; [apply rest_after_chat_grows_page |].
      rewrite Hchat_run. exact Hshown. }
  destruct (post E _) as [e | status_code text | body].
  - eapply Hno_reply; [exact Hrun |].
    apply in_or_app. right. right. left. reflexivity.
  - eapply Hno_reply; [exact Hrun |].
    apply in_or_app. right. right. left. reflexivity.
  - destruct (reply_content body) as [reply | e].
    + destruct (truthy reply).
      * split.
        -- rewrite bind_messages by apply rest_after_chat_keeps_messages.
           rewrite Hrun. reflexivity.
        -- apply bind_page; [apply rest_after_chat_grows_page |].
           rewrite Hrun. cbn [snd page]. apply in_or_app. right. left.
           reflexivity.
      * eapply Hno_reply; [exact Hrun |].
        apply in_or_app. right. left. reflexivity.
    + destruct e;
        try (split;
             [ rewrite bind_run, Hrun; reflexivity
             | rewrite bind_messages by apply rest_after_chat_keeps_messages;
               rewrite Hrun; reflexivity ]).
      eapply Hno_reply; [exact Hrun |].
      apply in_or_app. right. right. left. reflexivity.
Qed.

End ScriptFacts.

(* ===================================================================== *)
(** * Sample runs of the script                                            *)
(* ===================================================================== *)

(** With a key, pressing the estimate button renders the form and the
    three figures, here for 500 g of plastic over 100 km. *)
Example estimator_view_with_key :
  main str_zero with_key_env empty_world
  = (Done tt,
     World (Some [])
           [Title; Tabs; Sidebar; Form ChatView; Form EsgView; Form ScoreView;
            Form CarbonView; CarbonResults (lit 1.25) (lit 5.0) (lit 6.25);
            Info (py "Emission factors are approximate and for demonstration only.")]
           []).
Proof. vm_compute. reflexivity. Qed.

Lemma missing_key_stops_every_view_witness :
  main str_zero no_key_env empty_world
  = (Halted Stop,
     World None
           [Title; Tabs; Sidebar;
            Error (py "GROQ_API_KEY not set. Please check your .env file.")]
           []).
Proof.
  exact (missing_key_stops_every_view str_zero no_key_env empty_world
           (or_introl eq_refl)).
Defined.

(** C6, refuted as stated: without a key and with the estimate button
    pressed, the run stops at the error and the page has neither the
    estimator's form nor any result of it. *)
Lemma missing_key_hides_estimator :
  GROQ_API_KEY no_key_env = None
  /\ estimate_button no_key_env = true
  /\ fst (main str_zero no_key_env empty_world) = Halted Stop
  /\ ~ In (Form CarbonView) (page (snd (main str_zero no_key_env empty_world)))
  /\ (forall m t s : float,
        ~ In (CarbonResults m t s)
             (page (snd (main str_zero no_key_env empty_world)))).
Proof.
  split; [reflexivity |]. split; [reflexivity |]. split; [reflexivity |].
  split; [| intros m t s]; vm_compute; intros Hin;
    repeat (destruct Hin as [Hin | Hin]; [discriminate Hin |]); exact Hin.
Qed.

Lemma chat_turn_history_witness :
  (messages (snd (main str_zero hello_reply_env empty_world))
   = Some [Message (py "user") (PyStr (py "Hi"));
           Message (py "assistant") (PyStr (py "Hello!"))]
   /\ In (ChatMessage (py "assistant") (PyStr (py "Hello!")))
         (page (snd (main str_zero hello_reply_env empty_world))))
  /\ (messages (snd (main str_zero timeout_env empty_world))
      = Some [Message (py "user") (PyStr (py "Hi"))]
      /\ In (Error (py "Could not get a response from the model."))
            (page (snd (main str_zero timeout_env empty_world)))).
Proof.
  assert (Hprompt : py "Hi" <> []) by discriminate.
  split.
  - exact (chat_turn_history str_zero hello_reply_env empty_world (py "Hi")
             eq_refl eq_refl eq_refl Hprompt).
  - exact (chat_turn_history str_zero timeout_env empty_world (py "Hi")
             eq_refl eq_refl eq_refl Hprompt).
Defined.

(** C7, refuted as stated: the gateway call succeeds (status 200, a body
    with the reply field) with an empty reply, and the turn appends the
    user's message only, not the user's message and the assistant's
    reply. *)
Lemma empty_reply_is_not_recorded :
  (forall conversation,
     post empty_reply_env conversation = Response (reply_body (PyStr []))
     /\ reply_content (reply_body (PyStr [])) = Returns (PyStr []))
  /\ messages (snd (main str_zero empty_reply_env empty_world))
     = Some [Message (py "user") (PyStr (py "Hi"))]
  /\ messages (snd (main str_zero empty_reply_env empty_world))
     <> Some [Message (py "user") (PyStr (py "Hi"));
              Message (py "assistant") (PyStr [])].
Proof.
  split; [intros conversation; split; reflexivity |].
  assert (Hrun : messages (snd (main str_zero empty_reply_env empty_world))
                 = Some [Message (py "user") (PyStr (py "Hi"))])
    by (vm_compute; reflexivity).
  split; [exact Hrun |]. rewrite Hrun. discriminate.
Qed.

Lemma analysis_follows_extracted_text_witness :
  calls (snd (main str_zero partial_pdf_env empty_world))
  = [esg_conversation (py "Scope 1 emissions fell.")]
  /\ In (Error (py "Could not read PDF: bad xref"))
        (page (snd (main str_zero partial_pdf_env empty_world)))
  /\ calls (snd (main str_zero unreadable_pdf_env empty_world)) = []
  /\ In (Error (py "No readable text found in PDF."))
        (page (snd (main str_zero unreadable_pdf_env empty_world))).
Proof.
  destruct (analysis_follows_extracted_text str_zero partial_pdf_env empty_world
              partial_pdf eq_refl eq_refl eq_refl eq_refl eq_refl eq_refl)
    as (Hcalls & Herror & _).
  destruct (analysis_follows_extracted_text str_zero unreadable_pdf_env
              empty_world
              (Upload (py "notes.pdf") (Unreadable (py "EOF marker not found")))
              eq_refl eq_refl eq_refl eq_refl eq_refl eq_refl)
    as (_ & _ & Hunreadable).
  destruct (Hunreadable (py "EOF marker not found") eq_refl) as [Hnone Hshown].
  split; [exact Hcalls |]. split; [exact (Herror (py "bad xref") eq_refl) |].
  split; [exact Hnone | exact Hshown].
Defined.

(** C8, refuted as stated: the extraction fails on the second page, the
    failure is shown, and the analysis is attempted all the same, on the
    text of the first page. *)
Lemma partial_extraction_is_analysed :
  read_pdf (document partial_pdf)
  = (py "Scope 1 emissions fell.", Some (py "bad xref"))
  /\ In (Error (py "Could not read PDF: bad xref"))
        (page (snd (main str_zero partial_pdf_env empty_world)))
  /\ calls (snd (main str_zero partial_pdf_env empty_world))
     = [[Message (py "system") (PyStr SYSTEM_PROMPT);
         Message (py "user") (PyStr (esg_prompt (py "Scope 1 emissions fell.")))]]
  /\ calls (snd (main str_zero partial_pdf_env empty_world)) <> [].
Proof.
  split; [reflexivity |].
  split; [vm_compute; repeat (first [left; reflexivity | right]) |].
  split; [vm_compute; reflexivity |].
  vm_compute. discriminate.
Qed.

(* ===================================================================== *)
(** * Further properties of the estimator                                  *)
(* ===================================================================== *)

Lemma lookup_Paper {num : Type} `{PyNum num} :
  material_factors !! py "Paper" = Some (lit 1.0).
Proof. reflexivity. Qed.

Lemma lookup_Aluminum {num : Type} `{PyNum num} :
  material_factors !! py "Aluminum" = Some (lit 10.0).
Proof. reflexivity. Qed.

Lemma factor_range (material : pystr) :
  (1 <= dict_get (material_factors (num := R)) material 2.0 <= 10)%R.
Proof.
  destruct (factor_cases (num := R) material) as (q & Hq & Hcases).
  change (1 <= dict_get material_factors material (lit 2.0) <= 10)%R.
  rewrite Hq. change (1 <= Q2R q <= 10)%R.
  destruct Hcases as [-> | Hcases]; [lra |].
  cbn in Hcases.
  repeat (destruct Hcases as [<- | Hcases]; [lra |]). contradiction.
Qed.

(** X2.  Over the reals, for a weight that is not negative and any
    material string, known or not, the triple lies between the triples of
    "Paper" (the smallest factor) and "Aluminum" (the largest), component
    by component. *)
Theorem estimate_between_paper_and_aluminum (material : pystr) (w d : R) :
  (0 <= w)%R ->
  exists r paper aluminum,
    estimate_carbon_footprint material w d = Returns r
    /\ estimate_carbon_footprint (py "Paper") w d = Returns paper
    /\ estimate_carbon_footprint (py "Aluminum") w d = Returns aluminum
    /\ le3 paper r /\ le3 r aluminum.
Proof.
  intros Hw. eexists _, _, _.
  split; [apply estimate_real |].
  split; [apply estimate_real |]. split; [apply estimate_real |].
  rewrite (dict_get_present _ _ _ _ (lookup_Paper (num := R))).
  rewrite (dict_get_present _ _ _ _ (lookup_Aluminum (num := R))).
  pose proof (factor_range material) as [Hlow Hhigh].
  set (f := dict_get material_factors material 2.0%R) in *.
  change (lit (num := R) 1.0) with 1.0%R.
  change (lit (num := R) 10.0) with 10.0%R.
  assert (Hkg : (0 <= w / 1000)%R) by lra.
  assert (w / 1000 * 1.0 <= w / 1000 * f)%R
    by (apply Rmult_le_compat_l; lra).
  assert (w / 1000 * f <= w / 1000 * 10.0)%R
    by (apply Rmult_le_compat_l; lra).
  unfold le3. repeat split; lra.
Qed.

Lemma estimate_between_paper_and_aluminum_witness :
  exists r paper aluminum,
    estimate_carbon_footprint (py "Cardboard") 300%R 20%R = Returns r
    /\ estimate_carbon_footprint (py "Paper") 300%R 20%R = Returns paper
    /\ estimate_carbon_footprint (py "Aluminum") 300%R 20%R = Returns aluminum
    /\ le3 paper r /\ le3 r aluminum.
Proof.
  apply (estimate_between_paper_and_aluminum (py "Cardboard") 300%R 20%R). lra.
Defined.



(** The same in binary64: a negative weight goes through the formulas, and
    a negative weight too small to survive the rounding gives negative
    zeros, which are not below zero. *)
Example binary64_negative_weight :
  estimate_carbon_footprint (py "Glass") (lit (-250)) (lit 40)
  = Returns (lit (-0.3), lit (-1.0), lit (-1.3) : float).
Proof. vm_compute. reflexivity. Qed.

Example binary64_tiny_negative_weight :
  estimate_carbon_footprint (py "Glass") (-0x1p-1074)%float (lit 40)
  = Returns ((-0)%float, (-0)%float, (-0)%float)
  /\ PrimFloat.leb (-0)%float 0%float = true
  /\ PrimFloat.ltb (-0)%float 0%float = false.
Proof. vm_compute. repeat split. Qed.

(** X4.  In binary64 the estimator returns for every material and every
    pair of floats, infinities and NaN included: neither division can
    raise [ZeroDivisionError], and the triple is the one of the three
    formulas. *)
Theorem binary64_estimate_never_raises (material : pystr) (w d : float) :
  estimate_carbon_footprint material w d
  = Returns
      (let f := dict_get material_factors material (lit 2.0) in
       ((w / lit 1000 * f)%float,
        (w * d * lit 0.0001)%float,
        (w / lit 1000 * f + w * d * lit 0.0001)%float)).
Proof.
  rewrite (estimate_returns material w d binary64_1000_nonzero).
  cbv zeta.
  replace (quot (lit 0.1) (lit 1000 : float)) with (lit 0.0001 : float)
    by (vm_compute; reflexivity).
  reflexivity.
Qed.

(* ===================================================================== *)
(** * Further properties of the prompt builders                            *)
(* ===================================================================== *)

(** X5.  Two report texts give the same ESG prompt exactly when they agree
    on their first 3500 characters: what comes after has no effect on the
    request, and nothing before is lost. *)
Theorem esg_prompt_same_iff (text1 text2 : pystr) :
  esg_prompt text1 = esg_prompt text2 <-> take 3500 text1 = take 3500 text2.
Proof.
  unfold esg_prompt. rewrite !slice_to_take by lia.
  change (Z.to_nat 3500) with 3500.
  split.
  - intros Heq. apply app_inv_head, app_inv_tail in Heq. exact Heq.
  - intros ->. reflexivity.
Qed.

(** X6.  The ESG prompt is 289 characters of template around the embedded
    text, so it never exceeds 3789 characters. *)
Theorem esg_prompt_length (text : pystr) :
  length (esg_prompt text) = 289 + Nat.min 3500 (length text)
  /\ length (esg_prompt text) <= 3789.
Proof.
  assert (Hlen : length (esg_prompt text) = 289 + Nat.min 3500 (length text)).
  { unfold esg_prompt. rewrite slice_to_take by lia.
    change (Z.to_nat 3500) with 3500.
    rewrite !length_app, length_take.
    change (length esg_prompt_head) with 282.
    change (length esg_prompt_tail) with 7. lia. }
  split; [exact Hlen | lia].
Qed.

(** X7.  For a given material and weight the assessment prompt tells the
    four combinations of the flags apart. *)
Theorem assessment_prompt_tells_flags_apart
    (material weight : pystr) (r1 n1 r2 n2 : bool) :
  assessment_prompt material weight r1 n1 = assessment_prompt material weight r2 n2 ->
  r1 = r2 /\ n1 = n2.
Proof.
  unfold assessment_prompt. intros Heq.
  do 8 apply app_inv_head in Heq.
  assert (Hr : r1 = r2) by (destruct r1, r2; first [reflexivity | discriminate Heq]).
  subst r2. split; [reflexivity |].
  do 2 apply app_inv_head in Heq.
  destruct n1, n2; first [reflexivity | discriminate Heq].
Qed.

Lemma assessment_prompt_tells_flags_apart_witness :
  true = true /\ false = false.
Proof.
  apply (assessment_prompt_tells_flags_apart (py "Glass") (py "120.5")
           true false true false).
  reflexivity.
Defined.

(* ===================================================================== *)
(** * Further properties: the estimator view, two turns, [strip]           *)
(* ===================================================================== *)

(** X26.  Over the reals the estimator view renders its form and, when the
    button is pressed, the three figures of the form's material, weight
    and distance followed by the note; it always runs to its end, makes no
    gateway call and leaves the chat history alone. *)
Theorem carbon_tab_renders_the_estimate (E : env R) (w : world R) :
  carbon_footprint_tab E w
  = (Done tt,
     World (messages w)
           (page w
            ++ Form CarbonView
               :: if estimate_button E then
                    [CarbonResults
                       (cf_weight E / 1000
                        * dict_get material_factors (cf_material E) 2.0)%R
                       (cf_weight E * cf_distance E * 0.0001)%R
                       (cf_weight E / 1000
                        * dict_get material_factors (cf_material E) 2.0
                        + cf_weight E * cf_distance E * 0.0001)%R;
                     Info (py "Emission factors are approximate and for demonstration only.")]
                  else [])
           (calls w)).
Proof.
  unfold carbon_footprint_tab, when.
  destruct (estimate_button E); [| reflexivity].
  rewrite estimate_real.
  replace (0.1 / 1000)%R with 0.0001%R by lra.
  unfold mbind, script_bind, render, lift, mret, script_ret.
  cbn [messages page calls]. rewrite <- !app_assoc. reflexivity.
Qed.

(** X27.  Two chat turns in a row: the second turn sends the gateway the
    first exchange before the new message, and after two replies that are
    not empty the history is the old history followed by the two
    exchanges in order. *)
Theorem two_chat_turns_accumulate {num : Type} `{PyNum num}
    (str_num : num -> pystr) (E1 E2 : env num) (w : world num)
    (prompt1 prompt2 : pystr) (body1 body2 reply1 reply2 : pyval) :
  key_present E1 = true -> clear_chat E1 = false ->
  chat_input E1 = Some prompt1 -> prompt1 <> [] ->
  key_present E2 = true -> clear_chat E2 = false ->
  chat_input E2 = Some prompt2 -> prompt2 <> [] ->
  let history := default [] (messages w) in
  let system_message := Message (py "system") (PyStr SYSTEM_PROMPT) in
  let first_exchange :=
    [Message (py "user") (PyStr prompt1); Message (py "assistant") reply1] in
  let second_exchange :=
    [Message (py "user") (PyStr prompt2); Message (py "assistant") reply2] in
  post E1 (system_message :: history ++ [Message (py "user") (PyStr prompt1)])
  = Response body1 ->
  reply_content body1 = Returns reply1 -> truthy reply1 = true ->
  post E2 (system_message :: history ++ first_exchange
                             ++ [Message (py "user") (PyStr prompt2)])
  = Response body2 ->
  reply_content body2 = Returns reply2 -> truthy reply2 = true ->
  let after := snd (main str_num E2 (snd (main str_num E1 w))) in
  messages after = Some (history ++ first_exchange ++ second_exchange)
  /\ In (system_message :: history ++ first_exchange
                           ++ [Message (py "user") (PyStr prompt2)])
        (calls after).
Proof.
  intros Hkey1 Hclear1 Hchat1 Hprompt1 Hkey2 Hclear2 Hchat2 Hprompt2.
  intros history system_message first_exchange second_exchange.
  intros Hpost1 Hreply1 Htruthy1 Hpost2 Hreply2 Htruthy2 after.
  assert (Hfirst : messages (snd (main str_num E1 w))
                   = Some (history ++ first_exchange)).
  { rewrite (main_messages_after_chat str_num E1 w Hkey1 Hclear1).
    rewrite (chat_tab_turn_run E1 _ prompt1 Hchat1 Hprompt1). cbv zeta.
    cbn [messages page calls]. fold history system_message.
    rewrite Hpost1, Hreply1, Htruthy1. reflexivity. }
  subst after. remember (snd (main str_num E1 w)) as w1 eqn:Hw1.
  assert (Hrun : exists shown,
             chat_tab E2
               (World (messages w1) (page w1 ++ [Title; Tabs; Sidebar])
                      (calls w1))
             = (Done tt,
                World (Some (history ++ first_exchange ++ second_exchange))
                      shown
                      (calls w1
                       ++ [system_message
                           :: history ++ first_exchange
                              ++ [Message (py "user") (PyStr prompt2)]]))).
  { rewrite (chat_tab_turn_run E2 _ prompt2 Hchat2 Hprompt2). cbv zeta.
    cbn [messages page calls]. rewrite Hfirst. cbn [default from_option].
    fold system_message. unfold Datatypes.id.
    rewrite (app_assoc history first_exchange) in Hpost2.
    rewrite Hpost2, Hreply2, Htruthy2.
    eexists. rewrite <- !app_assoc. reflexivity. }
  destruct Hrun as [shown Hrun].
  split.
  - rewrite (main_messages_after_chat str_num E2 w1 Hkey2 Hclear2), Hrun.
    reflexivity.
  - rewrite (main_with_key str_num E2 w1 Hkey2 Hclear2).
    apply (bind_calls_in _ _ _ _ _ _ (rest_after_chat_posts str_num E2)).
    rewrite Hrun. cbn [snd calls]. apply in_or_app. right. left. reflexivity.
Qed.

Lemma lstrip_split (s : pystr) :
  exists l,
    s = l ++ lstrip s /\ forallb isspace l = true
    /\ match lstrip s with c :: _ => isspace c = false | [] => True end.
Proof.
  induction s as [| c s (l & Heq & Hl & Hhead)].
  - exists []. repeat split.
  - cbn [lstrip]. destruct (isspace c) eqn:Hc.
    + exists (c :: l). cbn [app forallb]. rewrite Hc, Hl, <- Heq.
      repeat split. exact Hhead.
    + exists []. repeat split. exact Hc.
Qed.

Lemma forallb_rev {A : Type} (f : A -> bool) (l : list A) :
  forallb f (rev l) = forallb f l.
Proof.
  induction l as [| x l IH]; [reflexivity |].
  cbn [rev forallb]. rewrite forallb_app, IH. cbn [forallb].
  rewrite andb_true_r. apply andb_comm.
Qed.

(** X28.  [strip] removes white space from the two ends and nothing else:
    the text is white space, then the stripped text, then white space, and
    the stripped text neither starts nor ends with a white space
    character. *)
Theorem strip_removes_surrounding_space (s : pystr) :
  exists l r,
    s = l ++ strip s ++ r
    /\ forallb isspace l = true /\ forallb isspace r = true
    /\ match strip s with c :: _ => isspace c = false | [] => True end
    /\ match rev (strip s) with c :: _ => isspace c = false | [] => True end.
Proof.
  destruct (lstrip_split s) as (l & Hs & Hl & Hhead).
  destruct (lstrip_split (rev (lstrip s))) as (r & Hr & Hrspace & Hlast).
  assert (Hsplit : lstrip s = strip s ++ rev r).
  { unfold strip, rstrip. rewrite <- rev_app_distr, <- Hr, rev_involutive.
    reflexivity. }
  exists l, (rev r). split; [rewrite <- Hsplit; exact Hs |].
  split; [exact Hl |]. split; [rewrite forallb_rev; exact Hrspace |].
  split.
  - rewrite Hsplit in Hhead. destruct (strip s); [exact I | exact Hhead].
  - unfold strip, rstrip. rewrite rev_involutive. exact Hlast.
Qed.

(* ===================================================================== *)
(** * Further sample runs                                                  *)
(* ===================================================================== *)

Lemma esg_prompt_same_iff_witness :
  esg_prompt (repeat 120%N 3500 ++ py "A") = esg_prompt (repeat 120%N 3500 ++ py "B").
Proof.
  apply (proj2 (esg_prompt_same_iff (repeat 120%N 3500 ++ py "A")
                                    (repeat 120%N 3500 ++ py "B"))).
  vm_compute. reflexivity.
Defined.

Lemma ask_groq_returns_first_choice_witness :
  ask_groq hello_reply_env [Message (py "user") (PyStr (py "Hi"))] empty_world
  = (Done (PyStr (py "Hello!")),
     World None [] [[Message (py "user") (PyStr (py "Hi"))]]).
Proof.
  apply ask_groq_returns_first_choice
    with (fields := {[ py "choices" :=
            PyList [PyDict {[ py "message" :=
              PyDict (<[ py "role" := PyStr (py "assistant") ]>
                        {[ py "content" := PyStr (py "Hello!") ]}) ]}] ]})
         (first := {[ py "message" :=
              PyDict (<[ py "role" := PyStr (py "assistant") ]>
                        {[ py "content" := PyStr (py "Hello!") ]}) ]})
         (msg := <[ py "role" := PyStr (py "assistant") ]>
                   {[ py "content" := PyStr (py "Hello!") ]})
         (others := []);
    reflexivity.
Defined.

Lemma ask_groq_missing_choices_witness :
  ask_groq no_choices_key_env [Message (py "user") (PyStr (py "Hi"))] empty_world
  = (Done PyNone,
     World None [Error (py "Unexpected API response format: 'choices'")]
           [[Message (py "user") (PyStr (py "Hi"))]]).
Proof.
  exact (ask_groq_missing_choices no_choices_key_env
           [Message (py "user") (PyStr (py "Hi"))] empty_world
           {[ py "error" := PyStr (py "overloaded") ]} eq_refl eq_refl).
Defined.

Lemma ask_groq_empty_choices_uncaught_witness :
  ask_groq no_choice_env [Message (py "user") (PyStr (py "Hi"))] empty_world
  = (Halted (Uncaught IndexError),
     World None [] [[Message (py "user") (PyStr (py "Hi"))]]).
Proof.
  exact (ask_groq_empty_choices_uncaught no_choice_env
           [Message (py "user") (PyStr (py "Hi"))] empty_world
           {[ py "choices" := PyList [] ]} eq_refl eq_refl).
Defined.

Lemma extract_text_concatenates_pages_witness :
  extract_text_from_pdf clean_pdf empty_world
  = (Done (py "Scope 1. Scope 2."), empty_world).
Proof.
  exact (extract_text_concatenates_pages clean_pdf
           [PageText (py "Scope 1. "); PageNone; PageText (py "Scope 2.")]
           empty_world eq_refl eq_refl).
Defined.

Lemma extract_text_stops_at_first_failure_witness :
  extract_text_from_pdf partial_pdf empty_world
  = (Done (py "Scope 1 emissions fell."),
     World None [Error (py "Could not read PDF: bad xref")] []).
Proof.
  exact (extract_text_stops_at_first_failure partial_pdf
           [PageText (py "Scope 1 emissions fell.")] [] (py "bad xref")
           empty_world eq_refl eq_refl).
Defined.

Lemma clear_chat_empties_history_witness :
  main str_zero clear_chat_env greeted_world
  = (Halted Rerun, World (Some []) [Title; Tabs; Sidebar] []).
Proof.
  exact (clear_chat_empties_history str_zero clear_chat_env greeted_world
           eq_refl).
Defined.

Lemma idle_run_replays_history_witness :
  main str_zero idle_env greeted_world
  = (Done tt,
     World (Some [Message (py "user") (PyStr (py "Hi"));
                  Message (py "assistant") (PyStr (py "Hello!"))])
           [Title; Tabs; Sidebar;
            ChatMessage (py "user") (PyStr (py "Hi"));
            ChatMessage (py "assistant") (PyStr (py "Hello!"));
            Form ChatView; Form EsgView; Form ScoreView; Form CarbonView]
           []).
Proof.
  exact (idle_run_replays_history str_zero idle_env greeted_world
           eq_refl eq_refl (or_introl eq_refl) eq_refl eq_refl eq_refl).
Defined.

Lemma chat_turn_posts_whole_history_witness :
  calls (snd (main str_zero hello_reply_env greeted_world))
  = [[Message (py "system") (PyStr SYSTEM_PROMPT);
      Message (py "user") (PyStr (py "Hi"));
      Message (py "assistant") (PyStr (py "Hello!"));
      Message (py "user") (PyStr (py "Hi"))]].
Proof.
  apply (chat_turn_posts_whole_history str_zero hello_reply_env greeted_world
           (py "Hi"));
    first [reflexivity | discriminate].
Defined.

Lemma chat_turn_uncaught_exception_witness :
  main str_zero no_choice_env empty_world
  = (Halted (Uncaught IndexError),
     World (Some [Message (py "user") (PyStr (py "Hi"))])
           [Title; Tabs; Sidebar; Form ChatView;
            ChatMessage (py "user") (PyStr (py "Hi"))]
           [[Message (py "system") (PyStr SYSTEM_PROMPT);
             Message (py "user") (PyStr (py "Hi"))]]).
Proof.
  apply (chat_turn_uncaught_exception str_zero no_choice_env empty_world
           (py "Hi") (PyDict {[ py "choices" := PyList [] ]}) IndexError);
    first [reflexivity | discriminate].
Defined.

Lemma history_untouched_without_prompt_witness :
  messages (snd (main str_zero clean_pdf_env greeted_world))
  = Some [Message (py "user") (PyStr (py "Hi"));
          Message (py "assistant") (PyStr (py "Hello!"))].
Proof.
  apply (history_untouched_without_prompt str_zero clean_pdf_env greeted_world);
    first [reflexivity | left; reflexivity].
Defined.

Lemma rejected_chat_turn_shows_status_witness :
  exists before after,
    page (snd (main str_zero rate_limited_env empty_world))
    = before
      ++ [Error (py "API Error 429: Too Many Requests");
          Error (py "Could not get a response from the model.")]
      ++ after.
Proof.
  apply (rejected_chat_turn_shows_status str_zero rate_limited_env empty_world
           (py "Hi") 429 (py "Too Many Requests"));
    first [reflexivity | discriminate].
Defined.

Lemma analysis_reply_is_shown_or_reported_witness :
  In (EsgSummary (PyStr (py "Summary.")))
     (page (snd (main str_zero clean_pdf_env empty_world))).
Proof.
  apply (analysis_reply_is_shown_or_reported str_zero clean_pdf_env empty_world
           clean_pdf (reply_body (PyStr (py "Summary."))) (PyStr (py "Summary.")));
    first [reflexivity | left; reflexivity].
Defined.

Lemma blank_document_is_not_analysed_witness :
  main str_zero blank_pdf_env empty_world
  = (Done tt,
     World (Some [])
           [Title; Tabs; Sidebar; Form ChatView; Form EsgView;
            Success (py "File uploaded: scan.pdf");
            Error (py "No readable text found in PDF.");
            Form ScoreView; Form CarbonView]
           []).
Proof.
  apply (blank_document_is_not_analysed str_zero blank_pdf_env empty_world
           blank_pdf);
    first [reflexivity | left; reflexivity].
Defined.

Lemma score_button_posts_the_form_witness :
  calls (snd (main str_zero score_env empty_world))
  = [[Message (py "system") (PyStr SYSTEM_PROMPT);
      Message (py "user")
        (PyStr (assessment_prompt (py "Glass") (py "0.0") true false))]].
Proof.
  apply (score_button_posts_the_form str_zero score_env empty_world);
    first [reflexivity | left; reflexivity].
Defined.

Lemma two_chat_turns_accumulate_witness :
  messages (snd (main str_zero hello_reply_env
                   (snd (main str_zero hello_reply_env empty_world))))
  = Some [Message (py "user") (PyStr (py "Hi"));
          Message (py "assistant") (PyStr (py "Hello!"));
          Message (py "user") (PyStr (py "Hi"));
          Message (py "assistant") (PyStr (py "Hello!"))]
  /\ In [Message (py "system") (PyStr SYSTEM_PROMPT);
         Message (py "user") (PyStr (py "Hi"));
         Message (py "assistant") (PyStr (py "Hello!"));
         Message (py "user") (PyStr (py "Hi"))]
        (calls (snd (main str_zero hello_reply_env
                       (snd (main str_zero hello_reply_env empty_world))))).
Proof.
  apply (two_chat_turns_accumulate str_zero hello_reply_env hello_reply_env
           empty_world (py "Hi") (py "Hi")
           (reply_body (PyStr (py "Hello!"))) (reply_body (PyStr (py "Hello!")))
           (PyStr (py "Hello!")) (PyStr (py "Hello!")));
    first [reflexivity | discriminate].
Defined.
